(** * verify_tokens.py: a shallow embedding and its checked properties

    The program reads credentials from a text file, asks an identity
    provider about each of them over HTTP, and writes the collected records
    as JSON and as text.  This development embeds the class
    [DiscordTokenVerifier] of [verify_tokens.py]:

    - Python values (the objects [json] and [requests] hand to the program)
      are the inductive type [pyval]; a [str] is a list of code points;
      a [dict] is an association list in insertion order;
    - code that can raise lives in the error monad [res]; methods that touch
      the network, the console, the file system or [self.results] live in
      the state-and-error monad [M];
    - what the program inherits from its runtime (the local time zone, the
      Unicode digit table, the rendering of floats) is a [Platform]. *)

From Stdlib Require Import List ZArith NArith Bool Ascii String Lia SpecFloat.
Import ListNotations.
Local Open Scope Z_scope.

(** ** Python strings *)

(** A Python [str] is a sequence of Unicode code points. *)
Definition pystr := list N.

(** String literals of the source, as code points. *)
Definition str (s : string) : pystr := map N_of_ascii (list_ascii_of_string s).
Arguments str s%_string.

Fixpoint pystr_eqb (a b : pystr) : bool :=
  match a, b with
  | [], [] => true
  | x :: a', y :: b' => N.eqb x y && pystr_eqb a' b'
  | _, _ => false
  end.

(** [str.isspace] on one code point: the characters [str.strip()] removes. *)
Definition py_isspace (c : N) : bool :=
  ((9 <=? c) && (c <=? 13) || (28 <=? c) && (c <=? 32) ||
   (c =? 133) || (c =? 160) || (c =? 5760) ||
   (8192 <=? c) && (c <=? 8202) || (c =? 8232) || (c =? 8233) ||
   (c =? 8239) || (c =? 8287) || (c =? 12288))%N.

(** [Py_ISSPACE]: the ASCII white space the integer parser skips. *)
Definition ascii_isspace (c : N) : bool :=
  ((9 <=? c) && (c <=? 13) || (c =? 32))%N.

Fixpoint lstrip (s : pystr) : pystr :=
  match s with
  | c :: rest => if py_isspace c then lstrip rest else s
  | [] => []
  end.

(** [s.strip()] *)
Definition strip (s : pystr) : pystr := rev (lstrip (rev (lstrip s))).

(** ** Python values *)

Unset Elimination Schemes.
Inductive pyval : Type :=
| PNone
| PBool (b : bool)
| PInt (n : Z)
| PFloat (f : spec_float)
| PStr (s : pystr)
| PList (l : list pyval)
| PDict (d : list (pystr * pyval)).
Set Elimination Schemes.

Definition pydict := list (pystr * pyval).

(** [d.get(key)] on the association list of a dict. *)
Fixpoint dict_lookup (key : pystr) (d : pydict) : option pyval :=
  match d with
  | [] => None
  | (k, v) :: rest => if pystr_eqb k key then Some v else dict_lookup key rest
  end.

Definition dict_keys (d : pydict) : list pystr := map fst d.

(** [bool(v)], the test of [if v:]. *)
Definition truthy (v : pyval) : bool :=
  match v with
  | PNone => false
  | PBool b => b
  | PInt n => negb (n =? 0)
  | PFloat (S754_zero _) => false
  | PFloat _ => true
  | PStr s => match s with [] => false | _ => true end
  | PList l => match l with [] => false | _ => true end
  | PDict d => match d with [] => false | _ => true end
  end.

(** [type(v).__name__] *)
Definition type_name (v : pyval) : pystr :=
  match v with
  | PNone => str "NoneType"
  | PBool _ => str "bool"
  | PInt _ => str "int"
  | PFloat _ => str "float"
  | PStr _ => str "str"
  | PList _ => str "list"
  | PDict _ => str "dict"
  end.

(** ** Exceptions *)

(** The exception classes the program's handlers tell apart, and those its
    library calls raise.  All of them derive from [Exception]. *)
Inductive exn_class :=
| RequestException   (* requests.exceptions.RequestException and subclasses *)
| FileNotFoundError
| OSError            (* any other failure of open/read/write *)
| AttributeError
| KeyError
| TypeError
| ValueError
| OverflowError
| OtherError.

(** An exception object: its class and [str(e)]. *)
Record exn := Exn { exn_cls : exn_class; exn_str : pystr }.

Inductive res (A : Type) : Type :=
| Ok (a : A)
| Raise (e : exn).
Arguments Ok {A} a.
Arguments Raise {A} e.

Definition res_bind {A B} (m : res A) (k : A -> res B) : res B :=
  match m with
  | Ok a => k a
  | Raise e => Raise e
  end.

Declare Scope res_scope.
Delimit Scope res_scope with res.
Notation "x <~ m ;; k" := (res_bind m (fun x => k))
  (at level 61, m at next level, right associativity) : res_scope.

(** [try: body  except: handler] with a bare [except], which catches
    every exception. *)
Definition try_except_all {A} (body : res A) (handler : res A) : res A :=
  match body with
  | Ok a => Ok a
  | Raise _ => handler
  end.

(** ** The runtime the program inherits *)

Record Platform := {
  (** seconds east of UTC of the local time zone at a POSIX time *)
  utcoffset : Z -> Z;
  (** [Py_UNICODE_TODECIMAL] on a code point outside ASCII *)
  unicode_decimal : N -> option N;
  (** least number of digits [%Y] prints: 1 with glibc, 4 elsewhere *)
  year_width : nat;
  (** [float.__repr__], which [json] writes for a float *)
  float_repr : spec_float -> pystr;
  (** [float(s)] on a JSON number with a fraction or an exponent *)
  float_of_literal : pystr -> spec_float
}.

(** ** [int(x)] *)

Definition is_digit (c : N) : bool := ((48 <=? c) && (c <=? 57))%N.
Definition digit_value (c : N) : Z := Z.of_N (c - 48).

(** The digits after the first one: decimal digits, each optionally
    preceded by a single underscore.  [acc] is the value read so far. *)
Fixpoint int_digits (acc : Z) (s : pystr) : option (Z * pystr) :=
  match s with
  | [] => Some (acc, [])
  | c :: rest =>
      if is_digit c then int_digits (acc * 10 + digit_value c) rest
      else if (c =? 95)%N then
        match rest with
        | d :: rest' =>
            if is_digit d then int_digits (acc * 10 + digit_value d) rest'
            else None
        | [] => None
        end
      else Some (acc, s)
  end.

Fixpoint skip_ascii_space (s : pystr) : pystr :=
  match s with
  | c :: rest => if ascii_isspace c then skip_ascii_space rest else s
  | [] => []
  end.

(** [PyLong_FromString] in base 10 on text already brought to ASCII. *)
Definition int_of_ascii (s : pystr) : option Z :=
  let s := skip_ascii_space s in
  let '(negative, s) :=
    match s with
    | 43%N :: r => (false, r)
    | 45%N :: r => (true, r)
    | _ => (false, s)
    end in
  match s with
  | c :: rest =>
      if is_digit c then
        match int_digits (digit_value c) rest with
        | Some (n, tail) =>
            match skip_ascii_space tail with
            | [] => Some (if negative then - n else n)
            | _ => None
            end
        | None => None
        end
      else None
  | [] => None
  end.

Section Runtime.

Variable P : Platform.

(** [_PyUnicode_TransformDecimalAndSpaceToASCII]: white space outside ASCII
    becomes a blank, a decimal digit of another script its ASCII digit;
    any other character outside ASCII makes the conversion fail. *)
Definition to_ascii_decimal (c : N) : option N :=
  if (c <? 128)%N then Some c
  else if py_isspace c then Some 32%N
  else match unicode_decimal P c with
       | Some d => if (d <? 10)%N then Some (48 + d)%N else None
       | None => None
       end.

Fixpoint transform_decimal (s : pystr) : option pystr :=
  match s with
  | [] => Some []
  | c :: rest =>
      match to_ascii_decimal c, transform_decimal rest with
      | Some c', Some rest' => Some (c' :: rest')
      | _, _ => None
      end
  end.

(** [int(s)] for a [str]. *)
Definition int_of_str (s : pystr) : option Z :=
  match transform_decimal s with
  | Some a => int_of_ascii a
  | None => None
  end.

(** [int(f)] for a [float]: truncation towards zero. *)
Definition int_of_float (f : spec_float) : res Z :=
  match f with
  | S754_zero _ => Ok 0
  | S754_infinity _ => Raise (Exn OverflowError (str "cannot convert float infinity to integer"))
  | S754_nan => Raise (Exn ValueError (str "cannot convert float NaN to integer"))
  | S754_finite s m e =>
      let a := if 0 <=? e then Z.pos m * 2 ^ e else Z.pos m / 2 ^ (- e) in
      Ok (if s then - a else a)
  end.

(** [int(v)].  The message of the [ValueError] for a string is the repr of
    the string; every caller in this program discards it.  The limit that
    CPython 3.11 puts on the number of digits of a numeral
    ([sys.int_max_str_digits]) is taken to be switched off. *)
Definition py_int (v : pyval) : res Z :=
  match v with
  | PBool b => Ok (if b then 1 else 0)
  | PInt n => Ok n
  | PFloat f => int_of_float f
  | PStr s =>
      match int_of_str s with
      | Some n => Ok n
      | None => Raise (Exn ValueError (str "invalid literal for int() with base 10"))
      end
  | PNone | PList _ | PDict _ =>
      Raise (Exn TypeError
        (str "int() argument must be a string, a bytes-like object or a real number, not '"
         ++ type_name v ++ str "'"))
  end.

(** ** [datetime.fromtimestamp] and [strftime] *)

Record datetime := {
  dt_year : Z; dt_month : Z; dt_day : Z;
  dt_hour : Z; dt_minute : Z; dt_second : Z
}.

(** The proleptic Gregorian date of a day number counted from 1970-01-01. *)
Definition civil_from_days (days : Z) : Z * Z * Z :=
  let z := days + 719468 in
  let era := z / 146097 in
  let doe := z - era * 146097 in
  let yoe := (doe - doe / 1460 + doe / 36524 - doe / 146096) / 365 in
  let doy := doe - (365 * yoe + yoe / 4 - yoe / 100) in
  let mp := (5 * doy + 2) / 153 in
  let d := doy - (153 * mp + 2) / 5 + 1 in
  let m := if mp <? 10 then mp + 3 else mp - 9 in
  let y := yoe + era * 400 + (if m <=? 2 then 1 else 0) in
  (y, m, d).

(** [time.localtime(t)]: the broken-down local time of POSIX second [t]. *)
Definition localtime (t : Z) : datetime :=
  let lt := t + utcoffset P t in
  let '(y, m, d) := civil_from_days (lt / 86400) in
  let sod := lt mod 86400 in
  {| dt_year := y; dt_month := m; dt_day := d;
     dt_hour := sod / 3600; dt_minute := sod mod 3600 / 60; dt_second := sod mod 60 |}.

Definition year_in_range (dt : datetime) : bool :=
  (1 <=? dt_year dt) && (dt_year dt <=? 9999).

(** [datetime.fromtimestamp(x)] for [x] in seconds.  The source passes the
    float [timestamp / 1000]; its fraction only fills the microsecond field,
    which the format below does not print, so the model takes the whole
    seconds [floor x].  CPython builds the local time of [x] and, to detect
    a repeated hour, of [x] minus one day; a year outside 1..9999 in either
    raises, as does a value too large for a float or for the C library. *)
Definition fromtimestamp (seconds : Z) : res datetime :=
  let dt := localtime seconds in
  if year_in_range dt && year_in_range (localtime (seconds - 86400))
  then Ok dt
  else Raise (Exn ValueError (str "year is out of range")).

Fixpoint decimal_digits (fuel : nat) (n : Z) (acc : pystr) : pystr :=
  match fuel with
  | O => acc
  | S fuel' =>
      let acc' := (48 + Z.to_N (n mod 10))%N :: acc in
      if n <? 10 then acc' else decimal_digits fuel' (n / 10) acc'
  end.

(** The decimal numeral of a natural number. *)
Definition decimal (n : Z) : pystr :=
  decimal_digits (S (Z.to_nat (Z.log2 n))) n [].

Definition zero_pad (width : nat) (s : pystr) : pystr :=
  repeat 48%N (width - List.length s) ++ s.

(** One conversion of [strftime]. *)
Definition strftime_directive (dt : datetime) (c : N) : pystr :=
  if (c =? 89)%N then zero_pad (year_width P) (decimal (dt_year dt))   (* %Y *)
  else if (c =? 109)%N then zero_pad 2 (decimal (dt_month dt))          (* %m *)
  else if (c =? 100)%N then zero_pad 2 (decimal (dt_day dt))            (* %d *)
  else if (c =? 72)%N then zero_pad 2 (decimal (dt_hour dt))            (* %H *)
  else if (c =? 77)%N then zero_pad 2 (decimal (dt_minute dt))          (* %M *)
  else if (c =? 83)%N then zero_pad 2 (decimal (dt_second dt))          (* %S *)
  else if (c =? 37)%N then [37%N]                                      (* %% *)
  else [37%N; c].

(** [dt.strftime(fmt)] for the conversions the program uses. *)
Fixpoint strftime (dt : datetime) (fmt : pystr) : pystr :=
  match fmt with
  | 37%N :: c :: rest => strftime_directive dt c ++ strftime dt rest
  | c :: rest => c :: strftime dt rest
  | [] => []
  end.

(** ** The Snowflake Decoder *)

Definition NA : pystr := str "N/A".

(** [DiscordTokenVerifier.get_creation_date] *)
Definition get_creation_date (user_id : pyval) : res pyval :=
  try_except_all
    (if truthy user_id then
       (n <~ py_int user_id ;;
        let timestamp := Z.shiftr n 22 + 1420070400000 in
        creation_date <~ fromtimestamp (timestamp / 1000) ;;
        Ok (PStr (strftime creation_date (str "%Y-%m-%d %H:%M:%S"))))%res
     else Ok (PStr NA))
    (Ok (PStr NA)).

End Runtime.

(** A Linux host on UTC, for the examples.  Its digit table knows ASCII
    only, and it prints every float alike: the examples hold no digit of
    another script and no float. *)
Definition linux_utc : Platform := {|
  utcoffset := fun _ => 0;
  unicode_decimal := fun _ => None;
  year_width := 1;
  float_repr := fun _ => str "0.0";
  float_of_literal := fun _ => S754_zero false
|}.

Definition timestamp_format : pystr := str "%Y-%m-%d %H:%M:%S".

(** ** The world the verifier runs in *)

(** What [requests.get] is called with. *)
Record request := {
  req_url : pystr;
  req_headers : list (pystr * pystr);
  req_timeout : Z
}.

(** What it returns: the status code, and what [response.json()] does with
    the body (the decoded value, or the exception it raises). *)
Record response := {
  status_code : Z;
  json : res pyval
}.

(** [open(path, 'r')] followed by reading gives the decoded text or raises;
    [open(path, 'w')] may raise. *)
Record FileSystem := {
  fs_read : pystr -> res pystr;
  fs_write_error : pystr -> option exn
}.

(** An f-string handed to [print]: literal text and interpolated values. *)
Inductive fragment :=
| Lit (s : pystr)
| Fmt (v : pyval).

(** The attributes [__init__] gives the object. *)
Record DiscordTokenVerifier := {
  discord_api_url : pystr;
  results : list pydict
}.

(** [str(n)] for an [int]. *)
Definition str_of_int (n : Z) : pystr :=
  if n <? 0 then 45%N :: decimal (- n) else decimal n.

(** [d.get(key, default)] on a dict. *)
Definition dict_get (d : pydict) (key : pystr) (default : pyval) : pyval :=
  match dict_lookup key d with
  | Some v => v
  | None => default
  end.

(** [obj.get(key, default)]: only a dict has the method. *)
Definition py_get (obj : pyval) (key : pystr) (default : pyval) : res pyval :=
  match obj with
  | PDict d => Ok (dict_get d key default)
  | _ =>
      Raise (Exn AttributeError
        (str "'" ++ type_name obj ++ str "' object has no attribute 'get'"))
  end.

(** [d[key]] *)
Definition py_getitem (d : pydict) (key : pystr) : res pyval :=
  match dict_lookup key d with
  | Some v => Ok v
  | None => Raise (Exn KeyError (str "'" ++ key ++ str "'"))
  end.

Declare Scope M_scope.
Delimit Scope M_scope with M.

Section Verifier.

Variable P : Platform.

(** The network: a state of its own, advanced by every request. *)
Variable World : Type.
Variable requests_get : request -> World -> res response * World.

Record State := {
  self : DiscordTokenVerifier;
  world : World;
  files : FileSystem;
  console : list (list fragment)
}.

(** Computations that read and change the state and may raise.  As in
    Python, what was changed before an exception stays changed. *)
Definition M (A : Type) : Type := State -> res A * State.

Definition ret {A} (a : A) : M A := fun s => (Ok a, s).

Definition bind {A B} (m : M A) (k : A -> M B) : M B :=
  fun s =>
    match m s with
    | (Ok a, s') => k a s'
    | (Raise e, s') => (Raise e, s')
    end.

Definition lift {A} (r : res A) : M A := fun s => (r, s).

(** [try: body  except ... as e: handler e], where the [except] clauses
    together catch every [Exception]. *)
Definition try_except {A} (body : M A) (handler : exn -> M A) : M A :=
  fun s =>
    match body s with
    | (Ok a, s') => (Ok a, s')
    | (Raise e, s') => handler e s'
    end.

Notation "x <- m ;; k" := (bind m (fun x => k))
  (at level 61, m at next level, right associativity) : M_scope.
Notation "m ;; k" := (bind m (fun _ => k))
  (at level 61, right associativity) : M_scope.
Local Open Scope M_scope.

Definition get_self : M DiscordTokenVerifier := fun s => (Ok (self s), s).

Definition http_get (req : request) : M response :=
  fun s =>
    let (r, w) := requests_get req (world s) in
    (r, {| self := self s; world := w; files := files s; console := console s |}).

(** [print(line)].  The console is taken to accept every character. *)
Definition print (line : list fragment) : M unit :=
  fun s =>
    (Ok tt, {| self := self s; world := world s; files := files s;
               console := console s ++ [line] |}).

(** [self.results.append(result)] *)
Definition append_result (result : pydict) : M unit :=
  fun s =>
    (Ok tt,
     {| self := {| discord_api_url := discord_api_url (self s);
                   results := results (self s) ++ [result] |};
        world := world s; files := files s; console := console s |}).

Definition is_RequestException (e : exn) : bool :=
  match exn_cls e with RequestException => true | _ => false end.

Definition is_FileNotFoundError (e : exn) : bool :=
  match exn_cls e with FileNotFoundError => true | _ => false end.

(** ** The Verifier *)

(** [DiscordTokenVerifier.__init__] *)
Definition init : DiscordTokenVerifier :=
  {| discord_api_url := str "https://discordapp.com/api/v9"; results := [] |}.

(** [DiscordTokenVerifier.verify_token] *)
Definition verify_token (token : pystr) : M pydict :=
  try_except
    (this <- get_self ;;
     let headers :=
       [ (str "Authorization", token);
         (str "User-Agent", str "Mozilla/5.0") ] in
     response <- http_get {| req_url := discord_api_url this ++ str "/users/@me";
                             req_headers := headers;
                             req_timeout := 5 |} ;;
     if status_code response =? 200 then
       user_data <- lift (json response) ;;
       username <- lift (py_get user_data (str "username") (PStr (str "N/A"))) ;;
       user_id <- lift (py_get user_data (str "id") (PStr (str "N/A"))) ;;
       email <- lift (py_get user_data (str "email") (PStr (str "N/A"))) ;;
       avatar <- lift (py_get user_data (str "avatar") (PStr (str "N/A"))) ;;
       id <- lift (py_get user_data (str "id") PNone) ;;
       created_at <- lift (get_creation_date P id) ;;
       verified <- lift (py_get user_data (str "verified") (PBool false)) ;;
       mfa_enabled <- lift (py_get user_data (str "mfa_enabled") (PBool false)) ;;
       ret [ (str "token", PStr token);
             (str "valid", PBool true);
             (str "username", username);
             (str "user_id", user_id);
             (str "email", email);
             (str "avatar", avatar);
             (str "created_at", created_at);
             (str "verified", verified);
             (str "mfa_enabled", mfa_enabled);
             (str "status", PStr (str "Valid Token")) ]
     else if status_code response =? 401 then
       ret [ (str "token", PStr token);
             (str "valid", PBool false);
             (str "username", PStr (str "N/A"));
             (str "user_id", PStr (str "N/A"));
             (str "email", PStr (str "N/A"));
             (str "avatar", PStr (str "N/A"));
             (str "created_at", PStr (str "N/A"));
             (str "verified", PBool false);
             (str "mfa_enabled", PBool false);
             (str "status", PStr (str "Invalid Token - Unauthorized")) ]
     else
       ret [ (str "token", PStr token);
             (str "valid", PBool false);
             (str "username", PStr (str "N/A"));
             (str "user_id", PStr (str "N/A"));
             (str "email", PStr (str "N/A"));
             (str "avatar", PStr (str "N/A"));
             (str "created_at", PStr (str "N/A"));
             (str "verified", PBool false);
             (str "mfa_enabled", PBool false);
             (str "status",
              PStr (str "Error - HTTP " ++ str_of_int (status_code response))) ])
    (fun e =>
       if is_RequestException e then
         ret [ (str "token", PStr token);
               (str "valid", PBool false);
               (str "username", PStr (str "N/A"));
               (str "user_id", PStr (str "N/A"));
               (str "email", PStr (str "N/A"));
               (str "avatar", PStr (str "N/A"));
               (str "created_at", PStr (str "N/A"));
               (str "verified", PBool false);
               (str "mfa_enabled", PBool false);
               (str "status", PStr (str "Connection Error: " ++ exn_str e)) ]
       else
         ret [ (str "token", PStr token);
               (str "valid", PBool false);
               (str "username", PStr (str "N/A"));
               (str "user_id", PStr (str "N/A"));
               (str "email", PStr (str "N/A"));
               (str "avatar", PStr (str "N/A"));
               (str "created_at", PStr (str "N/A"));
               (str "verified", PBool false);
               (str "mfa_enabled", PBool false);
               (str "status", PStr (str "Error: " ++ exn_str e)) ]).

(** ** The Batch Runner *)

(** A file opened in text mode translates "\r\n" and a lone "\r" to "\n". *)
Fixpoint universal_newlines (s : pystr) : pystr :=
  match s with
  | [] => []
  | c :: rest =>
      if (c =? 13)%N then
        10%N :: match rest with
                | c' :: rest' =>
                    if (c' =? 10)%N then universal_newlines rest'
                    else universal_newlines rest
                | [] => []
                end
      else c :: universal_newlines rest
  end.

(** Iterating over the file yields its lines, each with its "\n" when it
    has one.  [cur] is the part of the current line already read. *)
Fixpoint split_lines (cur : pystr) (s : pystr) : list pystr :=
  match s with
  | [] => match cur with [] => [] | _ => [cur] end
  | c :: rest =>
      if (c =? 10)%N then (cur ++ [c]) :: split_lines [] rest
      else split_lines (cur ++ [c]) rest
  end.

Definition file_lines (content : pystr) : list pystr :=
  split_lines [] (universal_newlines content).

(** [[line.strip() for line in f if line.strip()]] *)
Definition read_tokens (lines : list pystr) : list pystr :=
  flat_map (fun line => if truthy (PStr (strip line)) then [strip line] else []) lines.

(** [with open(file_path, 'r') as f], read to the end. *)
Definition open_read (file_path : pystr) : M pystr :=
  fun s => (fs_read (files s) file_path, s).

(** [for x in l: body x] *)
Fixpoint for_each {A} (l : list A) (body : A -> M unit) : M unit :=
  match l with
  | [] => ret tt
  | x :: rest => body x ;; for_each rest body
  end.

(** [DiscordTokenVerifier.verify_from_file] *)
Definition verify_from_file (file_path : pystr) : M (list pydict) :=
  try_except
    (content <- open_read file_path ;;
     let tokens := read_tokens (file_lines content) in
     print [Lit (10%N :: str "[*] Found "); Fmt (PInt (Z.of_nat (List.length tokens)));
            Lit (str " token(s) to verify")] ;;
     print [Lit (str "[*] Starting verification..." ++ [10%N])] ;;
     for_each tokens (fun token =>
       result <- verify_token token ;;
       append_result result ;;
       valid <- lift (py_getitem result (str "valid")) ;;
       let status_icon := if truthy valid then [10003%N] else [10007%N] in
       status <- lift (py_getitem result (str "status")) ;;
       print [Fmt (PStr status_icon); Lit (str " Token: ");
              Fmt (PStr (firstn 20 token)); Lit (str "... | Status: ");
              Fmt status] ;;
       valid <- lift (py_getitem result (str "valid")) ;;
       (if truthy valid then
          username <- lift (py_getitem result (str "username")) ;;
          print [Lit (str "   Username: "); Fmt username] ;;
          user_id <- lift (py_getitem result (str "user_id")) ;;
          print [Lit (str "   User ID: "); Fmt user_id] ;;
          email <- lift (py_getitem result (str "email")) ;;
          print [Lit (str "   Email: "); Fmt email] ;;
          created_at <- lift (py_getitem result (str "created_at")) ;;
          print [Lit (str "   Account Created: "); Fmt created_at] ;;
          mfa_enabled <- lift (py_getitem result (str "mfa_enabled")) ;;
          print [Lit (str "   MFA Enabled: "); Fmt mfa_enabled]
        else ret tt) ;;
       print []) ;;
     this <- get_self ;;
     ret (results this))
    (fun e =>
       if is_FileNotFoundError e then
         print [Lit (str "[!] Error: File '"); Fmt (PStr file_path);
                Lit (str "' not found")] ;;
         ret []
       else
         print [Lit (str "[!] Error reading file: "); Fmt (PStr (exn_str e))] ;;
         ret []).

End Verifier.

Arguments self {World} s.
Arguments world {World} s.
Arguments files {World} s.
Arguments console {World} s.
Arguments ret {World A} a s.
Arguments bind {World A B} m k s.
Arguments lift {World A} r s.
Arguments try_except {World A} body handler s.
Arguments get_self {World} s.
Arguments print {World} line s.
Arguments append_result {World} result s.
Arguments open_read {World} file_path s.

Notation "x <- m ;; k" := (bind m (fun x => k))
  (at level 61, m at next level, right associativity) : M_scope.
Notation "m ;; k" := (bind m (fun _ => k))
  (at level 61, right associativity) : M_scope.

Arguments for_each {World A} l body s.


(** ** [json.dump(obj, f, indent=2)] *)

Section JsonEncode.

Variable P : Platform.

Local Open Scope N_scope.

Definition hex_digit (d : N) : N := if d <? 10 then 48 + d else 87 + d.

(** ['{0:04x}'.format(n)] for [n] below 65536. *)
Definition hex4 (n : N) : pystr :=
  [ hex_digit (n / 4096 mod 16); hex_digit (n / 256 mod 16);
    hex_digit (n / 16 mod 16); hex_digit (n mod 16) ].

(** The replacement [py_encode_basestring_ascii] makes for one character:
    the short escapes, the character itself when it is printable ASCII,
    [\uXXXX] below 65536, a surrogate pair above. *)
Definition escape_char (c : N) : pystr :=
  if c =? 34 then [92; 34]
  else if c =? 92 then [92; 92]
  else if c =? 10 then [92; 110]
  else if c =? 13 then [92; 114]
  else if c =? 9 then [92; 116]
  else if c =? 12 then [92; 102]
  else if c =? 8 then [92; 98]
  else if (32 <=? c) && (c <=? 126) then [c]
  else if c <? 65536 then [92; 117] ++ hex4 c
  else
    let n := c - 65536 in
    let s1 := N.lor 55296 (N.land (N.shiftr n 10) 1023) in
    let s2 := N.lor 56320 (N.land n 1023) in
    [92; 117] ++ hex4 s1 ++ [92; 117] ++ hex4 s2.

Definition encode_string (s : pystr) : pystr :=
  34 :: flat_map escape_char s ++ [34].

(** [_floatstr]: the three special values by name, any other float by its
    [repr]. *)
Definition floatstr (f : spec_float) : pystr :=
  match f with
  | S754_nan => str "NaN"
  | S754_infinity false => str "Infinity"
  | S754_infinity true => str "-Infinity"
  | _ => float_repr P f
  end.

(** A line break followed by two blanks per nesting level. *)
Definition newline_indent (level : nat) : pystr :=
  10 :: repeat 32 (2 * level)%nat.

Definition join_items (sep : pystr) (items : list pystr) : pystr :=
  match items with
  | [] => []
  | x :: rest => x ++ flat_map (fun y => sep ++ y) rest
  end.

(** [_iterencode] at nesting depth [level], with [indent=2] and the
    separators [','] and [': '] that [json.dump] then uses. *)
Fixpoint json_encode (level : nat) (v : pyval) : pystr :=
  match v with
  | PNone => str "null"
  | PBool true => str "true"
  | PBool false => str "false"
  | PInt n => str_of_int n
  | PFloat f => floatstr f
  | PStr s => encode_string s
  | PList [] => str "[]"
  | PList l =>
      [91] ++ newline_indent (S level)
      ++ join_items (44 :: newline_indent (S level))
           (map (json_encode (S level)) l)
      ++ newline_indent level ++ [93]
  | PDict [] => str "{}"
  | PDict d =>
      [123] ++ newline_indent (S level)
      ++ join_items (44 :: newline_indent (S level))
           (map (fun kv => encode_string (fst kv) ++ [58; 32]
                           ++ json_encode (S level) (snd kv)) d)
      ++ newline_indent level ++ [125]
  end.

End JsonEncode.

(** ** [json.load] *)

Section JsonDecode.

Variable P : Platform.

Local Open Scope N_scope.

(** The white space between JSON tokens. *)
Definition is_ws (c : N) : bool :=
  (c =? 32) || (c =? 9) || (c =? 10) || (c =? 13).

Fixpoint skip_ws (s : pystr) : pystr :=
  match s with
  | c :: rest => if is_ws c then skip_ws rest else s
  | [] => []
  end.

Definition hex_value (c : N) : option N :=
  if (48 <=? c) && (c <=? 57) then Some (c - 48)
  else if (97 <=? c) && (c <=? 102) then Some (c - 87)
  else if (65 <=? c) && (c <=? 70) then Some (c - 55)
  else None.

(** The four hexadecimal digits after [\u]. *)
Definition decode_uXXXX (s : pystr) : option (N * pystr) :=
  match s with
  | a :: b :: c :: d :: rest =>
      match hex_value a, hex_value b, hex_value c, hex_value d with
      | Some a, Some b, Some c, Some d => Some (((a * 16 + b) * 16 + c) * 16 + d, rest)
      | _, _, _, _ => None
      end
  | _ => None
  end.

(** The character a short escape stands for. *)
Definition unescape (c : N) : option N :=
  if c =? 34 then Some 34
  else if c =? 92 then Some 92
  else if c =? 47 then Some 47
  else if c =? 98 then Some 8
  else if c =? 102 then Some 12
  else if c =? 110 then Some 10
  else if c =? 114 then Some 13
  else if c =? 116 then Some 9
  else None.

Definition is_high_surrogate (u : N) : bool := (55296 <=? u) && (u <=? 56319).
Definition is_low_surrogate (u : N) : bool := (56320 <=? u) && (u <=? 57343).

Definition cons_char (c : N) (r : option (pystr * pystr)) : option (pystr * pystr) :=
  match r with
  | Some (s, rest) => Some (c :: s, rest)
  | None => None
  end.

(** [scanstring] in strict mode, from just after the opening quote: the
    decoded string and the text after the closing quote.  A [\uXXXX] that
    is a high surrogate joins a following [\uXXXX] that is a low
    surrogate. *)
Fixpoint scanstring (fuel : nat) (s : pystr) : option (pystr * pystr) :=
  match fuel with
  | O => None
  | S fuel' =>
      match s with
      | [] => None
      | c :: rest =>
          if c =? 34 then Some ([], rest)
          else if c =? 92 then
            match rest with
            | [] => None
            | e :: rest' =>
                if e =? 117 then
                  match decode_uXXXX rest' with
                  | None => None
                  | Some (uni, after) =>
                      if is_high_surrogate uni then
                        match after with
                        | b :: u :: after' =>
                            if (b =? 92) && (u =? 117) then
                              match decode_uXXXX after' with
                              | None => None
                              | Some (uni2, after2) =>
                                  if is_low_surrogate uni2 then
                                    cons_char
                                      (65536 + N.lor (N.shiftl (uni - 55296) 10) (uni2 - 56320))
                                      (scanstring fuel' after2)
                                  else cons_char uni (scanstring fuel' after)
                              end
                            else cons_char uni (scanstring fuel' after)
                        | _ => cons_char uni (scanstring fuel' after)
                        end
                      else cons_char uni (scanstring fuel' after)
                  end
                else
                  match unescape e with
                  | Some ch => cons_char ch (scanstring fuel' rest')
                  | None => None
                  end
            end
          else if c <? 32 then None
          else cons_char c (scanstring fuel' rest)
      end
  end.

(** The longest run of ASCII digits at the head of the text. *)
Fixpoint span_digits (s : pystr) : pystr * pystr :=
  match s with
  | c :: rest =>
      if is_digit c then let (ds, r) := span_digits rest in (c :: ds, r)
      else ([], s)
  | [] => ([], [])
  end.

(** The integer part of a number: [0], or a digit from 1 to 9 and then
    any digits. *)
Definition scan_integer (s : pystr) : option (pystr * pystr) :=
  match s with
  | c :: rest =>
      if c =? 48 then Some ([c], rest)
      else if is_digit c then let (ds, r) := span_digits rest in Some (c :: ds, r)
      else None
  | [] => None
  end.

(** An optional fraction: a point and at least one digit. *)
Definition scan_frac (s : pystr) : pystr * pystr :=
  match s with
  | c :: rest =>
      if c =? 46 then
        match span_digits rest with
        | ([], _) => ([], s)
        | (ds, r) => (c :: ds, r)
        end
      else ([], s)
  | [] => ([], [])
  end.

(** An optional exponent: [e] or [E], an optional sign, at least one
    digit. *)
Definition scan_exp (s : pystr) : pystr * pystr :=
  match s with
  | c :: rest =>
      if (c =? 101) || (c =? 69) then
        let (sign, rest') :=
          match rest with
          | g :: r => if (g =? 43) || (g =? 45) then ([g], r) else ([], rest)
          | [] => ([], rest)
          end in
        match span_digits rest' with
        | ([], _) => ([], s)
        | (ds, r) => (c :: sign ++ ds, r)
        end
      else ([], s)
  | [] => ([], [])
  end.

Definition digits_value (ds : pystr) : Z :=
  fold_left (fun acc c => (acc * 10 + digit_value c)%Z) ds 0%Z.

(** A number: an integer when it has neither fraction nor exponent, a
    float otherwise. *)
Definition scan_number (s : pystr) : option (pyval * pystr) :=
  let (negative, s1) :=
    match s with
    | c :: rest => if c =? 45 then (true, rest) else (false, s)
    | [] => (false, s)
    end in
  match scan_integer s1 with
  | None => None
  | Some (int_part, s2) =>
      let (frac, s3) := scan_frac s2 in
      let (exp, s4) := scan_exp s3 in
      match frac, exp with
      | [], [] =>
          Some (PInt (if negative then - digits_value int_part
                      else digits_value int_part)%Z, s4)
      | _, _ =>
          Some (PFloat (float_of_literal P
                          ((if negative then [45] else []) ++ int_part ++ frac ++ exp)),
                s4)
      end
  end.

(** [text] when [s] starts with it: what is left of [s]. *)
Fixpoint strip_prefix (text s : pystr) : option pystr :=
  match text, s with
  | [], _ => Some s
  | a :: text', b :: s' => if a =? b then strip_prefix text' s' else None
  | _ :: _, [] => None
  end.

(** [dict(pairs)]: a key already present keeps its place and takes the new
    value. *)
Fixpoint dict_set (d : pydict) (key : pystr) (v : pyval) : pydict :=
  match d with
  | [] => [(key, v)]
  | (k, v') :: rest =>
      if pystr_eqb k key then (k, v) :: rest else (k, v') :: dict_set rest key v
  end.

Definition dict_of_pairs (pairs : list (pystr * pyval)) : pydict :=
  fold_left (fun d kv => dict_set d (fst kv) (snd kv)) pairs [].

(** The elements of an array after the first has been announced:
    [value] and then ["]"] or [","]; [n] bounds the number of elements. *)
Fixpoint parse_elements (value : pystr -> option (pyval * pystr)) (n : nat) (s : pystr)
  : option (list pyval * pystr) :=
  match n with
  | O => None
  | S n' =>
      match value s with
      | None => None
      | Some (v, rest) =>
          match skip_ws rest with
          | c :: rest' =>
              if c =? 93 then Some ([v], rest')
              else if c =? 44 then
                match parse_elements value n' (skip_ws rest') with
                | Some (vs, r) => Some (v :: vs, r)
                | None => None
                end
              else None
          | [] => None
          end
      end
  end.

(** The members of an object, from the opening quote of a key. *)
Fixpoint parse_members (value : pystr -> option (pyval * pystr)) (n : nat) (s : pystr)
  : option (list (pystr * pyval) * pystr) :=
  match n with
  | O => None
  | S n' =>
      match s with
      | q :: s0 =>
          if q =? 34 then
            match scanstring (List.length s0) s0 with
            | None => None
            | Some (key, s1) =>
                match skip_ws s1 with
                | c :: s2 =>
                    if c =? 58 then
                      match value (skip_ws s2) with
                      | None => None
                      | Some (v, s3) =>
                          match skip_ws s3 with
                          | c' :: s4 =>
                              if c' =? 125 then Some ([(key, v)], s4)
                              else if c' =? 44 then
                                match parse_members value n' (skip_ws s4) with
                                | Some (kvs, r) => Some ((key, v) :: kvs, r)
                                | None => None
                                end
                              else None
                          | [] => None
                          end
                      end
                    else None
                | [] => None
                end
            end
          else None
      | [] => None
      end
  end.

(** [scan_once]: one JSON value at the head of the text.  [fuel] bounds
    the nesting. *)
Fixpoint parse_value (fuel : nat) (s : pystr) : option (pyval * pystr) :=
  match fuel with
  | O => None
  | S fuel' =>
      match s with
      | [] => None
      | c :: rest =>
          if c =? 34 then
            match scanstring (List.length rest) rest with
            | Some (text, r) => Some (PStr text, r)
            | None => None
            end
          else if c =? 123 then
            match skip_ws rest with
            | c' :: rest' =>
                if c' =? 125 then Some (PDict [], rest')
                else
                  match parse_members (parse_value fuel') (List.length rest) (c' :: rest') with
                  | Some (kvs, r) => Some (PDict (dict_of_pairs kvs), r)
                  | None => None
                  end
            | [] => None
            end
          else if c =? 91 then
            match skip_ws rest with
            | c' :: rest' =>
                if c' =? 93 then Some (PList [], rest')
                else
                  match parse_elements (parse_value fuel') (List.length rest) (c' :: rest') with
                  | Some (vs, r) => Some (PList vs, r)
                  | None => None
                  end
            | [] => None
            end
          else
            match strip_prefix (str "null") s, strip_prefix (str "true") s,
                  strip_prefix (str "false") s with
            | Some r, _, _ => Some (PNone, r)
            | _, Some r, _ => Some (PBool true, r)
            | _, _, Some r => Some (PBool false, r)
            | None, None, None =>
                match scan_number s with
                | Some r => Some r
                | None =>
                    match strip_prefix (str "NaN") s, strip_prefix (str "Infinity") s,
                          strip_prefix (str "-Infinity") s with
                    | Some r, _, _ => Some (PFloat S754_nan, r)
                    | _, Some r, _ => Some (PFloat (S754_infinity false), r)
                    | _, _, Some r => Some (PFloat (S754_infinity true), r)
                    | None, None, None => None
                    end
                end
            end
      end
  end.

(** [json.loads(text)]: white space, one value, white space, the end. *)
Definition json_loads (text : pystr) : res pyval :=
  match parse_value (List.length text) (skip_ws text) with
  | Some (v, rest) =>
      match skip_ws rest with
      | [] => Ok v
      | _ => Raise (Exn ValueError (str "Extra data"))
      end
  | None => Raise (Exn ValueError (str "Expecting value"))
  end.

End JsonDecode.

(** ** Values that survive a trip through JSON *)

(** A string of Unicode code points in which no high surrogate is directly
    followed by a low surrogate.  Text decoded from a file or from an HTTP
    body is of this kind: the decoder joins such a pair into one
    character. *)
Fixpoint str_ok (s : pystr) : bool :=
  match s with
  | [] => true
  | c :: rest =>
      (c <? 1114112)%N
      && negb (is_high_surrogate c
               && match rest with
                  | c' :: _ => is_low_surrogate c'
                  | [] => false
                  end)
      && str_ok rest
  end.

Fixpoint distinct (keys : list pystr) : bool :=
  match keys with
  | [] => true
  | k :: rest => negb (existsb (pystr_eqb k) rest) && distinct rest
  end.

(** The values whose JSON text reads back as the same value: strings as
    above, dicts with distinct keys (as every Python dict has), and no
    float, since how floats are printed and read is left to the
    platform. *)
Fixpoint json_stable (v : pyval) : bool :=
  match v with
  | PNone | PBool _ | PInt _ => true
  | PFloat _ => false
  | PStr s => str_ok s
  | PList l => forallb json_stable l
  | PDict d =>
      distinct (map fst d)
      && forallb (fun kv => str_ok (fst kv) && json_stable (snd kv)) d
  end.

(** How deeply lists and dicts are nested in a value. *)
Fixpoint depth (v : pyval) : nat :=
  match v with
  | PList l => S (list_max (map depth l))
  | PDict d => S (list_max (map (fun kv => depth (snd kv)) d))
  | _ => O
  end.

(** What follows a value in the text [json_encode] writes: a comma, a line
    break, or the end. *)
Definition delimited (rest : pystr) : bool :=
  match rest with
  | [] => true
  | c :: _ => ((c =? 44) || (c =? 10))%N
  end.

(** The first character of an encoded value: not white space, and not a
    closing bracket. *)
Definition starts_value (s : pystr) : Prop :=
  exists c tl, s = c :: tl /\ is_ws c = false /\ c <> 93%N.

(** What is known of an element when the elements of a list are read:
    it is stable, and [parse_value] reads its text back. *)
Definition reads_back (P : Platform) (fuel level : nat) (v : pyval) : Prop :=
  json_stable v = true /\
  forall rest, delimited rest = true ->
    parse_value P fuel (json_encode P level v ++ rest) = Some (v, rest).

(** ** The Report Writer *)

Section ReportWriter.

Variable P : Platform.
Variable World : Type.

(** [with open(path, 'w') as f: f.write(text)] *)
Definition write_file (path text : pystr) : M World unit :=
  fun s =>
    match fs_write_error (files s) path with
    | Some e => (Raise e, s)
    | None =>
        (Ok tt,
         {| self := self s; world := world s;
            files := {| fs_read := fun p =>
                          if pystr_eqb p path then Ok text else fs_read (files s) p;
                        fs_write_error := fs_write_error (files s) |};
            console := console s |})
    end.

(** [DiscordTokenVerifier.save_results_json] *)
Definition save_results_json (output_file : pystr) : M World unit :=
  try_except
    (this <- get_self ;;
     write_file output_file (json_encode P 0 (PList (map PDict (results this)))) ;;
     print [Lit (str "[+] Results saved to "); Fmt (PStr output_file)])%M
    (fun e =>
       print [Lit (str "[!] Error saving JSON: "); Fmt (PStr (exn_str e))]).

End ReportWriter.

(** The ten fields of a result record, in the order the source writes
    them. *)
Definition result_fields : list pystr :=
  [ str "token"; str "valid"; str "username"; str "user_id"; str "email";
    str "avatar"; str "created_at"; str "verified"; str "mfa_enabled";
    str "status" ].

(** The record of a credential the provider did not accept. *)
Definition invalid_record (token status : pystr) : pydict :=
  [ (str "token", PStr token);
    (str "valid", PBool false);
    (str "username", PStr NA);
    (str "user_id", PStr NA);
    (str "email", PStr NA);
    (str "avatar", PStr NA);
    (str "created_at", PStr NA);
    (str "verified", PBool false);
    (str "mfa_enabled", PBool false);
    (str "status", PStr status) ].

(** The record of an accepted credential whose response body decoded to
    the JSON object [d]. *)
Definition valid_record (token : pystr) (d : pydict) (created_at : pyval) : pydict :=
  [ (str "token", PStr token);
    (str "valid", PBool true);
    (str "username", dict_get d (str "username") (PStr NA));
    (str "user_id", dict_get d (str "id") (PStr NA));
    (str "email", dict_get d (str "email") (PStr NA));
    (str "avatar", dict_get d (str "avatar") (PStr NA));
    (str "created_at", created_at);
    (str "verified", dict_get d (str "verified") (PBool false));
    (str "mfa_enabled", dict_get d (str "mfa_enabled") (PBool false));
    (str "status", PStr (str "Valid Token")) ].

(** The one request [verify_token] sends. *)
Definition request_for (this : DiscordTokenVerifier) (token : pystr) : request :=
  {| req_url := discord_api_url this ++ str "/users/@me";
     req_headers := [ (str "Authorization", token);
                      (str "User-Agent", str "Mozilla/5.0") ];
     req_timeout := 5 |}.

Definition with_world {World} (s : State World) (w : World) : State World :=
  {| self := self s; world := w; files := files s; console := console s |}.

(** A blank line: empty, or white space only. *)
Definition is_blank (line : pystr) : bool := forallb py_isspace line.

(** What one turn of the loop does to the state: one record, with the
    property [Q], is appended to [self.results]; the file system and the
    verifier's other attribute stay as they were. *)
Definition appends_record {World} (Q : pydict -> Prop) (s s' : State World) : Prop :=
  exists r,
    results (self s') = results (self s) ++ [r] /\
    Q r /\
    discord_api_url (self s') = discord_api_url (self s) /\
    files s' = files s.

Definition is_ascii (s : pystr) : bool := forallb (fun c => (c <? 128)%N) s.

(** An answer of the network whose text is proper and whose JSON value is
    stable. *)
Definition stable_outcome (o : res response) : bool :=
  match o with
  | Ok resp =>
      match json resp with
      | Ok v => json_stable v
      | Raise e => str_ok (exn_str e)
      end
  | Raise e => str_ok (exn_str e)
  end.

(** ** Concrete worlds for the examples *)

(** A network that answers from a script, one entry per request, and
    refuses connections once the script is used up. *)
Definition scripted (req : request) (script : list (res response))
  : res response * list (res response) :=
  match script with
  | r :: rest => (r, rest)
  | [] => (Raise (Exn RequestException (str "Connection refused")), [])
  end.

(** A file system with one readable file. *)
Definition one_file (path content : pystr) : FileSystem :=
  {| fs_read := fun p =>
       if pystr_eqb p path then Ok content
       else Raise (Exn FileNotFoundError (str "No such file or directory"));
     fs_write_error := fun _ => None |}.

(** The state in which [main] starts the batch: a new verifier, nothing
    printed yet. *)
Definition start {World} (w : World) (fs : FileSystem) : State World :=
  {| self := init; world := w; files := fs; console := [] |}.

(** A file system with no file at all. *)
Definition no_files : FileSystem :=
  {| fs_read := fun _ => Raise (Exn FileNotFoundError (str "No such file or directory"));
     fs_write_error := fun _ => None |}.

(** Responses and failures the examples use. *)
Definition ok_empty_object : response :=
  {| status_code := 200; json := Ok (PDict []) |}.

Definition ok_empty_array : response :=
  {| status_code := 200; json := Ok (PList []) |}.

Definition ok_not_json : response :=
  {| status_code := 200;
     json := Raise (Exn RequestException
                      (str "Expecting value: line 1 column 1 (char 0)")) |}.

Definition ok_user : response :=
  {| status_code := 200;
     json := Ok (PDict [ (str "id", PStr (str "175928847299117063"));
                         (str "username", PStr (str "alice"));
                         (str "avatar", PNone);
                         (str "email", PStr (str "alice@example.org"));
                         (str "verified", PBool true);
                         (str "mfa_enabled", PBool false) ]) |}.

Definition unauthorized : response :=
  {| status_code := 401; json := Ok (PDict [(str "message", PStr (str "401: Unauthorized"))]) |}.

Definition connection_refused : exn :=
  Exn RequestException (str "Connection refused").

Definition tokens_txt : pystr := str "tokens.txt".

(** Three credentials among blank lines, with mixed line ends. *)
Definition three_tokens : pystr :=
  str "deadbeef" ++ [10; 10; 32; 9; 13; 10; 32]%N ++ str "abc " ++ [13; 10]%N ++ str "xyz".



(** ** The host the program runs on *)

(** What the text report and [main] take from the machine they run on. *)
Record Host := {
  (** [str.isprintable] on a code point outside ASCII *)
  isprintable : N -> bool;
  (** the encoding of a file opened in text mode: the exception [f.write]
      raises on a text that cannot be encoded *)
  encode_error : pystr -> option exn;
  (** the POSIX second at which [datetime.now()] reads the clock *)
  time_now : Z;
  (** [os.path.exists] when the program starts *)
  path_exists : pystr -> bool;
  (** [input(prompt)]: the line typed, without its line end, or the
      exception raised *)
  input_line : pystr -> res pystr
}.

(** ** [repr(v)] and [str(v)] *)

Section Text.

Variable P : Platform.
Variable host : Host.

Local Open Scope N_scope.

(** ['{0:02x}'.format(n)] for [n] below 256. *)
Definition hex2 (n : N) : pystr :=
  [ hex_digit (n / 16 mod 16); hex_digit (n mod 16) ].

(** ['{0:08x}'.format(n)] *)
Definition hex8 (n : N) : pystr :=
  hex4 (n / 65536) ++ hex4 (n mod 65536).

(** The quote [repr] puts around a string: the double quote when the
    string has a single quote and no double quote, the single quote
    otherwise. *)
Definition repr_quote (s : pystr) : N :=
  if existsb (N.eqb 39) s && negb (existsb (N.eqb 34) s) then 34 else 39.

(** What [repr] writes for one character inside the quotes. *)
Definition repr_char (quote c : N) : pystr :=
  if (c =? quote) || (c =? 92) then [92; c]
  else if c =? 9 then [92; 116]
  else if c =? 10 then [92; 110]
  else if c =? 13 then [92; 114]
  else if (c <? 32) || (c =? 127) then [92; 120] ++ hex2 c
  else if c <? 127 then [c]
  else if isprintable host c then [c]
  else if c <=? 255 then [92; 120] ++ hex2 c
  else if c <=? 65535 then [92; 117] ++ hex4 c
  else [92; 85] ++ hex8 c.

Definition repr_str (s : pystr) : pystr :=
  let quote := repr_quote s in
  quote :: flat_map (repr_char quote) s ++ [quote].

(** [repr(f)] for a float: the three special values by name. *)
Definition float_str (f : spec_float) : pystr :=
  match f with
  | S754_nan => str "nan"
  | S754_infinity false => str "inf"
  | S754_infinity true => str "-inf"
  | _ => float_repr P f
  end.

Fixpoint py_repr (v : pyval) : pystr :=
  match v with
  | PNone => str "None"
  | PBool true => str "True"
  | PBool false => str "False"
  | PInt n => str_of_int n
  | PFloat f => float_str f
  | PStr s => repr_str s
  | PList l => [91] ++ join_items (str ", ") (map py_repr l) ++ [93]
  | PDict d =>
      [123]
      ++ join_items (str ", ")
           (map (fun kv => repr_str (fst kv) ++ str ": " ++ py_repr (snd kv)) d)
      ++ [125]
  end.

(** [str(v)], which is also what an f-string puts for [{v}]: a string as
    it is, any other value as its [repr]. *)
Definition py_str (v : pyval) : pystr :=
  match v with
  | PStr s => s
  | _ => py_repr v
  end.

(** [v[:n]] in CPython 3.11: the first [n] items of a string or a list;
    a dict refuses the slice as a key, the other values are not
    subscriptable. *)
Definition py_slice_to (n : nat) (v : pyval) : res pyval :=
  match v with
  | PStr s => Ok (PStr (firstn n s))
  | PList l => Ok (PList (firstn n l))
  | PDict _ => Raise (Exn TypeError (str "unhashable type: 'slice'"))
  | _ =>
      Raise (Exn TypeError
        (str "'" ++ type_name v ++ str "' object is not subscriptable"))
  end.

End Text.

(** ** The text report and the program *)

Section Program.

Variable P : Platform.
Variable host : Host.
Variable World : Type.
Variable requests_get : request -> World -> res response * World.

Local Open Scope M_scope.

(** [with open(path, 'w') as f]: the file is created or emptied.  The
    file object is known by its path. *)
Definition open_write (path : pystr) : M World pystr :=
  write_file World path [] ;; ret path.

(** [f.write(text)]: the text is added to what the file holds, unless the
    file's encoding refuses it.  Line ends are written as they are. *)
Definition f_write (f text : pystr) : M World unit :=
  fun s =>
    match encode_error host text with
    | Some e => (Raise e, s)
    | None =>
        (Ok tt,
         {| self := self s; world := world s;
            files := {| fs_read := fun p =>
                          if pystr_eqb p f then
                            match fs_read (files s) f with
                            | Ok written => Ok (written ++ text)
                            | Raise e => Raise e
                            end
                          else fs_read (files s) p;
                        fs_write_error := fs_write_error (files s) |};
            console := console s |})
    end.

(** [datetime.now()] *)
Definition datetime_now : res datetime := fromtimestamp P (time_now host).

(** [DiscordTokenVerifier.save_results_txt] *)
Definition save_results_txt (output_file : pystr) : M World unit :=
  try_except
    (f <- open_write output_file ;;
     f_write f (repeat 61%N 80 ++ [10%N]) ;;
     f_write f (str "DISCORD TOKEN VERIFICATION RESULTS" ++ [10%N]) ;;
     now <- lift datetime_now ;;
     f_write f (str "Generated: " ++ strftime P now (str "%Y-%m-%d %H:%M:%S")
                ++ [10%N]) ;;
     f_write f (repeat 61%N 80 ++ [10%N; 10%N]) ;;
     this <- get_self ;;
     for_each (results this) (fun result =>
       token <- lift (py_getitem result (str "token")) ;;
       shown <- lift (py_slice_to 30 token) ;;
       f_write f (str "Token: " ++ py_str P host shown ++ str "..." ++ [10%N]) ;;
       status <- lift (py_getitem result (str "status")) ;;
       f_write f (str "Status: " ++ py_str P host status ++ [10%N]) ;;
       valid <- lift (py_getitem result (str "valid")) ;;
       f_write f (str "Valid: " ++ py_str P host valid ++ [10%N]) ;;
       valid <- lift (py_getitem result (str "valid")) ;;
       (if truthy valid then
          username <- lift (py_getitem result (str "username")) ;;
          f_write f (str "Username: " ++ py_str P host username ++ [10%N]) ;;
          user_id <- lift (py_getitem result (str "user_id")) ;;
          f_write f (str "User ID: " ++ py_str P host user_id ++ [10%N]) ;;
          email <- lift (py_getitem result (str "email")) ;;
          f_write f (str "Email: " ++ py_str P host email ++ [10%N]) ;;
          created_at <- lift (py_getitem result (str "created_at")) ;;
          f_write f (str "Account Created: " ++ py_str P host created_at ++ [10%N]) ;;
          verified <- lift (py_getitem result (str "verified")) ;;
          f_write f (str "Verified Account: " ++ py_str P host verified ++ [10%N]) ;;
          mfa_enabled <- lift (py_getitem result (str "mfa_enabled")) ;;
          f_write f (str "MFA Enabled: " ++ py_str P host mfa_enabled ++ [10%N])
        else ret tt) ;;
       f_write f (repeat 45%N 80 ++ [10%N; 10%N])) ;;
     print [Lit (str "[+] Results saved to "); Fmt (PStr output_file)])
    (fun e =>
       print [Lit (str "[!] Error saving TXT: "); Fmt (PStr (exn_str e))]).

(** [verifier = DiscordTokenVerifier()] *)
Definition new_verifier : M World unit :=
  fun s =>
    (Ok tt, {| self := init; world := world s; files := files s;
               console := console s |}).

(** [input(prompt)]: the prompt goes to the console, as an entry of its
    own, and the line typed comes back. *)
Definition py_input (prompt : pystr) : M World pystr :=
  fun s =>
    (input_line host prompt,
     {| self := self s; world := world s; files := files s;
        console := console s ++ [[Lit prompt]] |}).

(** [main] *)
Definition main : M World unit :=
  print [Lit (repeat 61%N 80)] ;;
  print [Lit (str "DISCORD TOKEN VERIFICATION TOOL v1.0")] ;;
  print [Lit (repeat 61%N 80 ++ [10%N])] ;;
  new_verifier ;;
  input_file <-
    (if path_exists host (str "tokens.txt") then ret (str "tokens.txt")
     else
       line <- py_input (str "[?] Enter the path to your tokens file: ") ;;
       ret (strip line)) ;;
  verify_from_file P World requests_get input_file ;;
  verifier <- get_self ;;
  if truthy (PList (map PDict (results verifier))) then
    print [Lit (10%N :: str "[*] Saving results...")] ;;
    save_results_json P World (str "results.json") ;;
    save_results_txt (str "results.txt") ;;
    print [Lit (10%N :: str "[+] Verification complete!")]
  else
    print [Lit (10%N :: str "[!] No tokens were verified")].

End Program.

(** ** What the added properties speak of *)

(** A record as [verify_token] builds it for the credential [token]. *)
Definition is_record (token : pystr) (r : pydict) : Prop :=
  (exists status, r = invalid_record token status) \/
  (exists d c, r = valid_record token d (PStr c)).

(** What the loop of [verify_from_file] prints for a credential and its
    record: the status line with the first 20 characters of the
    credential, five lines of details when the record is valid, and an
    empty line. *)
Definition echo (token : pystr) (r : pydict) : list (list fragment) :=
  let field key := Fmt (dict_get r key PNone) in
  if truthy (dict_get r (str "valid") PNone) then
    [ [Fmt (PStr [10003%N]); Lit (str " Token: "); Fmt (PStr (firstn 20 token));
       Lit (str "... | Status: "); field (str "status")];
      [Lit (str "   Username: "); field (str "username")];
      [Lit (str "   User ID: "); field (str "user_id")];
      [Lit (str "   Email: "); field (str "email")];
      [Lit (str "   Account Created: "); field (str "created_at")];
      [Lit (str "   MFA Enabled: "); field (str "mfa_enabled")];
      [] ]
  else
    [ [Fmt (PStr [10007%N]); Lit (str " Token: "); Fmt (PStr (firstn 20 token));
       Lit (str "... | Status: "); field (str "status")];
      [] ].

(** * Checked properties *)

(** ** Properties of the Snowflake Decoder *)

(** The identifier of the provider's documentation. *)
Example snowflake_doc_example :
  get_creation_date linux_utc (PStr (str "175928847299117063"))
  = Ok (PStr (str "2016-04-30 11:18:25")).
Proof. vm_compute. reflexivity. Qed.

Lemma fromtimestamp_Ok (P : Platform) (t : Z) (dt : datetime) :
  fromtimestamp P t = Ok dt ->
  dt = localtime P t /\ year_in_range dt = true.
Proof.
  unfold fromtimestamp.
  destruct (year_in_range (localtime P t)) eqn:Hy; simpl; [|discriminate].
  destruct (year_in_range (localtime P (t - 86400))); [|discriminate].
  intros H. injection H as <-. auto.
Qed.

(** The program's format prints the six fields between fixed separators. *)
Lemma strftime_timestamp_format (P : Platform) (dt : datetime) :
  strftime P dt timestamp_format =
    zero_pad (year_width P) (decimal (dt_year dt)) ++ str "-" ++
    zero_pad 2 (decimal (dt_month dt)) ++ str "-" ++
    zero_pad 2 (decimal (dt_day dt)) ++ str " " ++
    zero_pad 2 (decimal (dt_hour dt)) ++ str ":" ++
    zero_pad 2 (decimal (dt_minute dt)) ++ str ":" ++
    zero_pad 2 (decimal (dt_second dt)).
Proof.
  change timestamp_format
    with ([37; 89; 45; 37; 109; 45; 37; 100; 32; 37; 72; 58; 37; 77; 58; 37; 83]%N).
  cbn [strftime]. unfold strftime_directive. cbn [N.eqb Pos.eqb].
  rewrite app_nil_r. repeat rewrite <- app_assoc. reflexivity.
Qed.

Lemma zero_pad_length (w : nat) (s : pystr) : (w <= List.length (zero_pad w s))%nat.
Proof.
  unfold zero_pad. rewrite length_app, repeat_length. lia.
Qed.

(** A formatted time is never the sentinel: it is at least 13 characters
    long. *)
Lemma strftime_not_NA (P : Platform) (dt : datetime) :
  strftime P dt timestamp_format <> NA.
Proof.
  intros H. apply (f_equal (@List.length N)) in H.
  rewrite strftime_timestamp_format in H.
  repeat rewrite length_app in H.
  pose proof (zero_pad_length 2 (decimal (dt_month dt))).
  pose proof (zero_pad_length 2 (decimal (dt_day dt))).
  pose proof (zero_pad_length 2 (decimal (dt_hour dt))).
  change (List.length NA) with 3%nat in H. lia.
Qed.

(** What [get_creation_date] computes on each path. *)
Lemma get_creation_date_cases (P : Platform) (user_id : pyval) :
  (get_creation_date P user_id = Ok (PStr NA) /\
   (truthy user_id = false \/
    (exists e, py_int P user_id = Raise e) \/
    (exists n e, py_int P user_id = Ok n /\
       fromtimestamp P ((Z.shiftr n 22 + 1420070400000) / 1000) = Raise e)))
  \/
  (exists n dt,
     truthy user_id = true /\
     py_int P user_id = Ok n /\
     fromtimestamp P ((Z.shiftr n 22 + 1420070400000) / 1000) = Ok dt /\
     get_creation_date P user_id = Ok (PStr (strftime P dt timestamp_format))).
Proof.
  unfold get_creation_date.
  destruct (truthy user_id) eqn:Ht; [|left; auto].
  destruct (py_int P user_id) as [n|e] eqn:Hn; cbn [res_bind try_except_all];
    [|left; eauto].
  destruct (fromtimestamp P ((Z.shiftr n 22 + 1420070400000) / 1000)) as [dt|e] eqn:Hd;
    cbn [res_bind try_except_all].
  - right. exists n, dt. auto.
  - left. split; [reflexivity|]. right. right. exists n, e. auto.
Qed.

(** C4: [get_creation_date] never raises.  On every input it returns a
    string, which is either the sentinel "N/A" or a time formatted with
    "%Y-%m-%d %H:%M:%S"; a missing identifier, a non-numeric string, a float
    infinity and an identifier whose time lies after year 9999 all give the
    sentinel. *)
Theorem get_creation_date_never_raises :
  (forall (P : Platform) (user_id : pyval),
     exists s, get_creation_date P user_id = Ok (PStr s) /\
       (s = NA \/
        exists dt, year_in_range dt = true /\ s = strftime P dt timestamp_format)) /\
  (forall P, get_creation_date P PNone = Ok (PStr NA)) /\
  (forall P, get_creation_date P (PStr (str "not a number")) = Ok (PStr NA)) /\
  (forall P, get_creation_date P (PFloat (S754_infinity false)) = Ok (PStr NA)) /\
  get_creation_date linux_utc (PStr (str "1056890076895641600000")) = Ok (PStr NA).
Proof.
  split; [|repeat split; intros; vm_compute; reflexivity].
  intros P user_id.
  destruct (get_creation_date_cases P user_id) as [[H _]|(n & dt & _ & _ & Hd & H)].
  - exists NA. auto.
  - exists (strftime P dt timestamp_format). split; [exact H|].
    right. exists dt. split; [|reflexivity].
    apply (fromtimestamp_Ok P _ _ Hd).
Qed.

(** C8: whenever [get_creation_date] returns something else than the
    sentinel, the identifier converts to an integer [n], the time stamp is
    [(n >> 22) + 1420070400000] milliseconds (the shift is the quotient by
    2^22), and the result is the local calendar time of that instant
    printed with "%Y-%m-%d %H:%M:%S". *)
Theorem get_creation_date_decodes (P : Platform) (user_id : pyval) (s : pystr) :
  get_creation_date P user_id = Ok (PStr s) ->
  s <> NA ->
  exists n : Z,
    py_int P user_id = Ok n /\
    Z.shiftr n 22 = n / 2 ^ 22 /\
    let timestamp := Z.shiftr n 22 + 1420070400000 in
    fromtimestamp P (timestamp / 1000) = Ok (localtime P (timestamp / 1000)) /\
    s = strftime P (localtime P (timestamp / 1000)) (str "%Y-%m-%d %H:%M:%S").
Proof.
  intros Hs Hne.
  destruct (get_creation_date_cases P user_id) as [[H _]|(n & dt & _ & Hn & Hd & H)].
  - rewrite H in Hs. injection Hs as <-. contradiction.
  - rewrite H in Hs. injection Hs as <-.
    exists n. split; [exact Hn|]. split; [apply Z.shiftr_div_pow2; lia|].
    cbv zeta. destruct (fromtimestamp_Ok P _ _ Hd) as [-> _].
    split; [assumption|reflexivity].
Qed.

Lemma get_creation_date_decodes_witness :
  exists n : Z,
    py_int linux_utc (PStr (str "175928847299117063")) = Ok n /\
    Z.shiftr n 22 = n / 2 ^ 22 /\
    let timestamp := Z.shiftr n 22 + 1420070400000 in
    fromtimestamp linux_utc (timestamp / 1000)
      = Ok (localtime linux_utc (timestamp / 1000)) /\
    str "2016-04-30 11:18:25"
      = strftime linux_utc (localtime linux_utc (timestamp / 1000))
          (str "%Y-%m-%d %H:%M:%S").
Proof.
  apply (get_creation_date_decodes linux_utc (PStr (str "175928847299117063"))
           (str "2016-04-30 11:18:25")).
  - vm_compute. reflexivity.
  - vm_compute. discriminate.
Defined.

(** The converse of C8: a truthy identifier that converts to an integer
    whose time is in range is decoded. *)
Lemma get_creation_date_succeeds (P : Platform) (user_id : pyval) (n : Z) (dt : datetime) :
  truthy user_id = true ->
  py_int P user_id = Ok n ->
  fromtimestamp P ((Z.shiftr n 22 + 1420070400000) / 1000) = Ok dt ->
  get_creation_date P user_id = Ok (PStr (strftime P dt (str "%Y-%m-%d %H:%M:%S"))).
Proof.
  intros Ht Hn Hd. unfold get_creation_date. rewrite Ht, Hn.
  cbn [res_bind try_except_all]. rewrite Hd. reflexivity.
Qed.

(** C10: a falsy identifier gives the sentinel, the integer 0 and the empty
    string among them, although the arithmetic decodes 0 (the string "0",
    which is truthy, gives the first second of 2015); a result other than
    the sentinel comes from a truthy identifier only. *)
Theorem get_creation_date_falsy :
  (forall (P : Platform) (user_id : pyval),
     truthy user_id = false -> get_creation_date P user_id = Ok (PStr NA)) /\
  (forall P, get_creation_date P (PInt 0) = Ok (PStr NA)) /\
  (forall P, get_creation_date P (PStr []) = Ok (PStr NA)) /\
  get_creation_date linux_utc (PStr (str "0")) = Ok (PStr (str "2015-01-01 00:00:00")) /\
  (forall (P : Platform) (user_id : pyval),
     get_creation_date P user_id <> Ok (PStr NA) -> truthy user_id = true).
Proof.
  assert (Hfalsy : forall P user_id,
             truthy user_id = false -> get_creation_date P user_id = Ok (PStr NA)).
  { intros P user_id Ht. unfold get_creation_date. rewrite Ht. reflexivity. }
  split; [exact Hfalsy|].
  split; [intros; apply Hfalsy; reflexivity|].
  split; [intros; apply Hfalsy; reflexivity|].
  split; [vm_compute; reflexivity|].
  intros P user_id Hne. destruct (truthy user_id) eqn:Ht; [reflexivity|].
  elim Hne. apply Hfalsy, Ht.
Qed.

Lemma get_creation_date_falsy_witness :
  truthy (PFloat (S754_zero true)) = false /\
  get_creation_date linux_utc (PFloat (S754_zero true)) = Ok (PStr NA).
Proof.
  split; [reflexivity|].
  apply (proj1 get_creation_date_falsy linux_utc (PFloat (S754_zero true))).
  reflexivity.
Defined.

(** ** Properties of the Verifier *)

Lemma get_creation_date_returns (P : Platform) (user_id : pyval) :
  exists s, get_creation_date P user_id = Ok (PStr s).
Proof.
  destruct (get_creation_date_cases P user_id) as [[H _]|(n & dt & _ & _ & _ & H)];
    eauto.
Qed.

Section VerifierProperties.

Variable P : Platform.
Variable World : Type.
Variable requests_get : request -> World -> res response * World.

Local Abbreviation run_token := (verify_token P World requests_get).

(** The request raised: the handler turns the exception into a record. *)
Lemma verify_token_request_raises (token : pystr) (s : State World) (e : exn) (w : World) :
  requests_get (request_for (self s) token) (world s) = (Raise e, w) ->
  run_token token s =
    (Ok (invalid_record token
           ((if is_RequestException e then str "Connection Error: " else str "Error: ")
            ++ exn_str e)),
     with_world s w).
Proof.
  intros H. unfold verify_token, try_except, bind, get_self, http_get, lift, ret.
  cbn [self world files console].
  change (requests_get _ (world s)) with (requests_get (request_for (self s) token) (world s)).
  rewrite H. destruct (is_RequestException e); reflexivity.
Qed.

(** A response with status 200 whose body decoded to a JSON object. *)
Lemma verify_token_200_object (token : pystr) (s : State World)
      (resp : response) (w : World) (d : pydict) :
  requests_get (request_for (self s) token) (world s) = (Ok resp, w) ->
  status_code resp = 200 ->
  json resp = Ok (PDict d) ->
  exists c,
    get_creation_date P (dict_get d (str "id") PNone) = Ok (PStr c) /\
    run_token token s = (Ok (valid_record token d (PStr c)), with_world s w).
Proof.
  intros H Hc Hj.
  destruct (get_creation_date_returns P (dict_get d (str "id") PNone)) as [c Hg].
  exists c. split; [exact Hg|].
  unfold verify_token, try_except, bind, get_self, http_get, lift, ret.
  cbn [self world files console].
  change (requests_get _ (world s)) with (requests_get (request_for (self s) token) (world s)).
  rewrite H, Hc, Hj. cbn [Z.eqb Pos.eqb py_get]. rewrite Hg. reflexivity.
Qed.

(** A response with status 200 whose body is not JSON: [response.json()]
    raises, and the handler answers. *)
Lemma verify_token_200_json_raises (token : pystr) (s : State World)
      (resp : response) (w : World) (e : exn) :
  requests_get (request_for (self s) token) (world s) = (Ok resp, w) ->
  status_code resp = 200 ->
  json resp = Raise e ->
  run_token token s =
    (Ok (invalid_record token
           ((if is_RequestException e then str "Connection Error: " else str "Error: ")
            ++ exn_str e)),
     with_world s w).
Proof.
  intros H Hc Hj.
  unfold verify_token, try_except, bind, get_self, http_get, lift, ret.
  cbn [self world files console].
  change (requests_get _ (world s)) with (requests_get (request_for (self s) token) (world s)).
  rewrite H, Hc, Hj. cbn [Z.eqb Pos.eqb].
  destruct (is_RequestException e); reflexivity.
Qed.

(** A response with status 200 whose body is JSON but not an object: the
    first [user_data.get] raises [AttributeError]. *)
Lemma verify_token_200_not_object (token : pystr) (s : State World)
      (resp : response) (w : World) (v : pyval) :
  requests_get (request_for (self s) token) (world s) = (Ok resp, w) ->
  status_code resp = 200 ->
  json resp = Ok v ->
  (forall d, v <> PDict d) ->
  run_token token s =
    (Ok (invalid_record token
           (str "Error: '" ++ type_name v ++ str "' object has no attribute 'get'")),
     with_world s w).
Proof.
  intros H Hc Hj Hv.
  unfold verify_token, try_except, bind, get_self, http_get, lift, ret.
  cbn [self world files console].
  change (requests_get _ (world s)) with (requests_get (request_for (self s) token) (world s)).
  rewrite H, Hc, Hj. cbn [Z.eqb Pos.eqb].
  destruct v; try reflexivity. elim (Hv d). reflexivity.
Qed.

Lemma verify_token_401 (token : pystr) (s : State World) (resp : response) (w : World) :
  requests_get (request_for (self s) token) (world s) = (Ok resp, w) ->
  status_code resp = 401 ->
  run_token token s =
    (Ok (invalid_record token (str "Invalid Token - Unauthorized")), with_world s w).
Proof.
  intros H Hc.
  unfold verify_token, try_except, bind, get_self, http_get, lift, ret.
  cbn [self world files console].
  change (requests_get _ (world s)) with (requests_get (request_for (self s) token) (world s)).
  rewrite H, Hc. reflexivity.
Qed.

Lemma verify_token_other_status (token : pystr) (s : State World)
      (resp : response) (w : World) :
  requests_get (request_for (self s) token) (world s) = (Ok resp, w) ->
  status_code resp <> 200 ->
  status_code resp <> 401 ->
  run_token token s =
    (Ok (invalid_record token (str "Error - HTTP " ++ str_of_int (status_code resp))),
     with_world s w).
Proof.
  intros H H200 H401.
  unfold verify_token, try_except, bind, get_self, http_get, lift, ret.
  cbn [self world files console].
  change (requests_get _ (world s)) with (requests_get (request_for (self s) token) (world s)).
  rewrite H.
  destruct (Z.eqb_spec (status_code resp) 200); [contradiction|].
  destruct (Z.eqb_spec (status_code resp) 401); [contradiction|].
  reflexivity.
Qed.

(** Every run of [verify_token] ends in one of two ways: the record of a
    rejected credential, or the record built from a 200 response whose body
    decoded to a JSON object.  It never raises, and changes nothing but the
    network. *)
Lemma verify_token_cases (token : pystr) (s : State World) :
  exists w,
    (exists status,
       run_token token s = (Ok (invalid_record token status), with_world s w) /\
       ~ (exists resp d,
            requests_get (request_for (self s) token) (world s) = (Ok resp, w) /\
            status_code resp = 200 /\ json resp = Ok (PDict d)))
    \/
    (exists resp d c,
       requests_get (request_for (self s) token) (world s) = (Ok resp, w) /\
       status_code resp = 200 /\ json resp = Ok (PDict d) /\
       get_creation_date P (dict_get d (str "id") PNone) = Ok (PStr c) /\
       run_token token s = (Ok (valid_record token d (PStr c)), with_world s w)).
Proof.
  destruct (requests_get (request_for (self s) token) (world s)) as [[resp|e] w] eqn:Hreq;
    exists w.
  - destruct (Z.eq_dec (status_code resp) 200) as [H200|H200].
    + destruct (json resp) as [v|e] eqn:Hj.
      * assert (Hv : (exists d, v = PDict d) \/ (forall d, v <> PDict d))
          by (destruct v; try (right; discriminate); left; eauto).
        destruct Hv as [[d ->]|Hv].
        -- right. destruct (verify_token_200_object token s resp w d Hreq H200 Hj)
             as (c & Hc & Hrun).
           exists resp, d, c. auto.
        -- left. eexists. split.
           ++ apply (verify_token_200_not_object token s resp w v Hreq H200 Hj Hv).
           ++ intros (resp' & d & H1 & _ & H3). injection H1 as <-.
              rewrite Hj in H3. injection H3 as ->. elim (Hv d). reflexivity.
      * left. eexists. split.
        -- apply (verify_token_200_json_raises token s resp w e Hreq H200 Hj).
        -- intros (resp' & d & H1 & _ & H3). injection H1 as <-.
           rewrite Hj in H3. discriminate.
    + left. destruct (Z.eq_dec (status_code resp) 401) as [H401|H401].
      * eexists. split.
        -- apply (verify_token_401 token s resp w Hreq H401).
        -- intros (resp' & d & H1 & H2 & _). injection H1 as <-. contradiction.
      * eexists. split.
        -- apply (verify_token_other_status token s resp w Hreq H200 H401).
        -- intros (resp' & d & H1 & H2 & _). injection H1 as <-. contradiction.
  - left. eexists. split.
    + apply (verify_token_request_raises token s e w Hreq).
    + intros (resp' & d & H1 & _). discriminate.
Qed.

(** C2, as the code has it: a 200 response whose body decodes to a JSON
    object gives the record with valid=true, the identity fields read from
    the body (the sentinel where a key is absent), the creation time
    computed by [get_creation_date] from the "id" field, and the status
    "Valid Token"; a 200 response whose body does not decode to a JSON
    object gives an invalid record whose status embeds the failure; a 401
    response gives the invalid record with status exactly
    "Invalid Token - Unauthorized"; any other status code gives the invalid
    record whose status is "Error - HTTP " followed by the code. *)
Theorem verify_token_classifies (token : pystr) (s : State World)
        (resp : response) (w : World) :
  requests_get (request_for (self s) token) (world s) = (Ok resp, w) ->
  (status_code resp = 200 ->
     (forall d, json resp = Ok (PDict d) ->
        exists c,
          get_creation_date P (dict_get d (str "id") PNone) = Ok (PStr c) /\
          run_token token s = (Ok (valid_record token d (PStr c)), with_world s w)) /\
     (forall v, json resp = Ok v -> (forall d, v <> PDict d) ->
        run_token token s =
          (Ok (invalid_record token
                 (str "Error: '" ++ type_name v ++ str "' object has no attribute 'get'")),
           with_world s w)) /\
     (forall e, json resp = Raise e ->
        run_token token s =
          (Ok (invalid_record token
                 ((if is_RequestException e then str "Connection Error: " else str "Error: ")
                  ++ exn_str e)),
           with_world s w))) /\
  (status_code resp = 401 ->
     run_token token s =
       (Ok (invalid_record token (str "Invalid Token - Unauthorized")), with_world s w)) /\
  (status_code resp <> 200 -> status_code resp <> 401 ->
     run_token token s =
       (Ok (invalid_record token (str "Error - HTTP " ++ str_of_int (status_code resp))),
        with_world s w)).
Proof.
  intros Hreq. split; [|split].
  - intros H200. split; [|split].
    + intros d Hj. apply (verify_token_200_object token s resp w d Hreq H200 Hj).
    + intros v Hj Hv.
      apply (verify_token_200_not_object token s resp w v Hreq H200 Hj Hv).
    + intros e Hj. apply (verify_token_200_json_raises token s resp w e Hreq H200 Hj).
  - intros H401. apply (verify_token_401 token s resp w Hreq H401).
  - intros H200 H401. apply (verify_token_other_status token s resp w Hreq H200 H401).
Qed.

(** C3, as the code has it: in a record with valid=true each identity
    field holds what the response body has under its key, and the sentinel
    "N/A" where the body has no such key; in a record with valid=false the
    identity fields all hold the sentinel. *)
Theorem verify_token_identity_fields (token : pystr) (s s' : State World) (r : pydict) :
  run_token token s = (Ok r, s') ->
  (dict_lookup (str "valid") r = Some (PBool true) ->
     exists resp d,
       requests_get (request_for (self s) token) (world s) = (Ok resp, world s') /\
       json resp = Ok (PDict d) /\
       dict_lookup (str "username") r = Some (dict_get d (str "username") (PStr NA)) /\
       dict_lookup (str "user_id") r = Some (dict_get d (str "id") (PStr NA)) /\
       dict_lookup (str "email") r = Some (dict_get d (str "email") (PStr NA)) /\
       dict_lookup (str "avatar") r = Some (dict_get d (str "avatar") (PStr NA))) /\
  (dict_lookup (str "valid") r = Some (PBool false) ->
     dict_lookup (str "username") r = Some (PStr NA) /\
     dict_lookup (str "user_id") r = Some (PStr NA) /\
     dict_lookup (str "email") r = Some (PStr NA) /\
     dict_lookup (str "avatar") r = Some (PStr NA)).
Proof.
  intros Hrun.
  destruct (verify_token_cases token s)
    as (w & [(status & Hr & _)|(resp & d & c & Hreq & _ & Hj & _ & Hr)]);
    rewrite Hr in Hrun; injection Hrun as <- <-.
  - split; [discriminate|]. intros _. repeat split; reflexivity.
  - split; [|discriminate]. intros _. exists resp, d.
    repeat split; try reflexivity; assumption.
Qed.

(** C5: when the request raises, [verify_token] returns (it does not raise)
    the invalid record: valid=false, every identity field the sentinel, and
    a status that ends with the text of the exception, after
    "Connection Error: " for a [RequestException] (time-out, refused
    connection, failed name lookup) and after "Error: " for any other. *)
Theorem verify_token_network_failure (token : pystr) (s : State World) (e : exn) (w : World) :
  requests_get (request_for (self s) token) (world s) = (Raise e, w) ->
  run_token token s =
    (Ok [ (str "token", PStr token);
          (str "valid", PBool false);
          (str "username", PStr (str "N/A"));
          (str "user_id", PStr (str "N/A"));
          (str "email", PStr (str "N/A"));
          (str "avatar", PStr (str "N/A"));
          (str "created_at", PStr (str "N/A"));
          (str "verified", PBool false);
          (str "mfa_enabled", PBool false);
          (str "status",
           PStr ((if is_RequestException e then str "Connection Error: " else str "Error: ")
                 ++ exn_str e)) ],
     with_world s w).
Proof.
  intros Hreq. apply (verify_token_request_raises token s e w Hreq).
Qed.

(** C9, as the code has it: on every path [verify_token] returns a record
    with the same ten fields in the same order, whose token is the
    credential it was given; valid is true exactly when the response had
    status 200 and its body decoded to a JSON object. *)
Theorem verify_token_record_shape (token : pystr) (s : State World) :
  exists r w valid,
    run_token token s = (Ok r, with_world s w) /\
    dict_keys r = result_fields /\
    dict_lookup (str "token") r = Some (PStr token) /\
    dict_lookup (str "valid") r = Some (PBool valid) /\
    (valid = true <->
     exists resp d,
       requests_get (request_for (self s) token) (world s) = (Ok resp, w) /\
       status_code resp = 200 /\ json resp = Ok (PDict d)).
Proof.
  destruct (verify_token_cases token s)
    as (w & [(status & Hr & Hn)|(resp & d & c & Hreq & H200 & Hj & _ & Hr)]).
  - exists (invalid_record token status), w, false.
    repeat split; try reflexivity; try assumption.
    + discriminate.
    + intros H. elim (Hn H).
  - exists (valid_record token d (PStr c)), w, true.
    repeat split; try reflexivity; try assumption.
    intros _. exists resp, d. auto.
Qed.

End VerifierProperties.

(** ** Properties of the Batch Runner *)

Lemma lstrip_nil_iff (s : pystr) : lstrip s = [] <-> forallb py_isspace s = true.
Proof.
  induction s as [|c s IH]; cbn; [tauto|].
  destruct (py_isspace c); cbn; [exact IH|]. split; discriminate.
Qed.

Lemma lstrip_head (s : pystr) (c : N) (t : pystr) :
  lstrip s = c :: t -> py_isspace c = false.
Proof.
  induction s as [|x s IH]; cbn; [discriminate|].
  destruct (py_isspace x) eqn:Hx; [exact IH|].
  intros H. injection H as <- _. exact Hx.
Qed.

Lemma forallb_rev_eq {A} (f : A -> bool) (l : list A) :
  forallb f (rev l) = forallb f l.
Proof.
  induction l as [|x l IH]; [reflexivity|].
  cbn. rewrite forallb_app, IH. cbn. rewrite andb_true_r. apply andb_comm.
Qed.

(** A line strips to the empty string exactly when it is blank: empty, or
    white space only. *)
Lemma strip_nil_iff (s : pystr) : strip s = [] <-> forallb py_isspace s = true.
Proof.
  unfold strip. split.
  - intros H. apply (f_equal (@rev N)) in H. rewrite rev_involutive in H. cbn in H.
    apply lstrip_nil_iff in H. rewrite forallb_rev_eq in H.
    destruct (lstrip s) as [|c t] eqn:Hs; [apply lstrip_nil_iff, Hs|].
    apply lstrip_head in Hs. cbn in H. rewrite Hs in H. discriminate.
  - intros H. apply lstrip_nil_iff in H. rewrite H. reflexivity.
Qed.

(** The comprehension keeps the non-blank lines, stripped, in order. *)
Lemma read_tokens_filter (lines : list pystr) :
  read_tokens lines = map strip (filter (fun l => negb (is_blank l)) lines).
Proof.
  unfold read_tokens. induction lines as [|l lines IH]; [reflexivity|].
  cbn [flat_map filter]. rewrite IH. unfold is_blank.
  destruct (forallb py_isspace l) eqn:Hb; cbn [negb map].
  - apply strip_nil_iff in Hb. rewrite Hb. reflexivity.
  - destruct (strip l) eqn:Hs; [|reflexivity].
    apply strip_nil_iff in Hs. congruence.
Qed.

Section BatchProperties.

Variable P : Platform.
Variable World : Type.
Variable requests_get : request -> World -> res response * World.

Local Abbreviation run_token := (verify_token P World requests_get).
Local Abbreviation run_file := (verify_from_file P World requests_get).

(** A loop whose every turn appends one record appends one record per
    element, in order, and does not raise. *)
Lemma for_each_collects (Q : pystr -> pydict -> Prop) (body : pystr -> M World unit) :
  (forall token s, exists s', body token s = (Ok tt, s') /\ appends_record (Q token) s s') ->
  forall tokens s,
    exists s' rs,
      for_each tokens body s = (Ok tt, s') /\
      results (self s') = results (self s) ++ rs /\
      Forall2 Q tokens rs /\
      discord_api_url (self s') = discord_api_url (self s) /\
      files s' = files s.
Proof.
  intros Hbody tokens. induction tokens as [|t tokens IH]; intros s.
  - exists s, []. rewrite app_nil_r. repeat split; auto.
  - destruct (Hbody t s) as (s1 & Hrun & r & Hres & HQ & Hurl & Hfs).
    destruct (IH s1) as (s2 & rs & Hrun2 & Hres2 & Hall & Hurl2 & Hfs2).
    exists s2, (r :: rs). cbn [for_each]. unfold bind. rewrite Hrun, Hrun2.
    split; [reflexivity|]. split.
    { rewrite Hres2, Hres, <- app_assoc. reflexivity. }
    split; [constructor; assumption|].
    split; congruence.
Qed.

(** One turn of the loop of [verify_from_file] appends the record
    [verify_token] returns. *)
Lemma loop_body_appends (Q : pystr -> pydict -> Prop) (body : pystr -> M World unit) :
  (forall token s,
     body token s =
       (result <- run_token token ;;
        append_result result ;;
        valid <- lift (py_getitem result (str "valid")) ;;
        let status_icon := if truthy valid then [10003%N] else [10007%N] in
        status <- lift (py_getitem result (str "status")) ;;
        print [Fmt (PStr status_icon); Lit (str " Token: ");
               Fmt (PStr (firstn 20 token)); Lit (str "... | Status: ");
               Fmt status] ;;
        valid <- lift (py_getitem result (str "valid")) ;;
        (if truthy valid then
           username <- lift (py_getitem result (str "username")) ;;
           print [Lit (str "   Username: "); Fmt username] ;;
           user_id <- lift (py_getitem result (str "user_id")) ;;
           print [Lit (str "   User ID: "); Fmt user_id] ;;
           email <- lift (py_getitem result (str "email")) ;;
           print [Lit (str "   Email: "); Fmt email] ;;
           created_at <- lift (py_getitem result (str "created_at")) ;;
           print [Lit (str "   Account Created: "); Fmt created_at] ;;
           mfa_enabled <- lift (py_getitem result (str "mfa_enabled")) ;;
           print [Lit (str "   MFA Enabled: "); Fmt mfa_enabled]
         else ret tt) ;;
        print [])%M s) ->
  (forall token s r s', run_token token s = (Ok r, s') -> Q token r) ->
  forall token s, exists s', body token s = (Ok tt, s') /\ appends_record (Q token) s s'.
Proof.
  intros Hbody HQ token s. rewrite Hbody. unfold bind at 1.
  destruct (verify_token_cases P World requests_get token s)
    as (w & [(status & Hr & _)|(resp & d & c & _ & _ & _ & _ & Hr)]);
    pose proof (HQ _ _ _ _ Hr) as Hq;
    rewrite Hr; (eexists; split; [reflexivity|]);
    eexists; (split; [reflexivity|]); (split; [exact Hq|]); split; reflexivity.
Qed.

(** On any verifier, [verify_from_file] appends to [self.results] one
    record per credential of the file (the stripped non-blank lines, in
    order), the record [verify_token] returned for it, and returns
    [self.results]: the records of earlier runs followed by the new
    ones. *)
Lemma verify_from_file_appends (Q : pystr -> pydict -> Prop)
      (file_path content : pystr) (s : State World) :
  (forall token s r s', run_token token s = (Ok r, s') -> Q token r) ->
  fs_read (files s) file_path = Ok content ->
  exists new s',
    run_file file_path s = (Ok (results (self s) ++ new), s') /\
    results (self s') = results (self s) ++ new /\
    Forall2 Q (map strip (filter (fun l => negb (is_blank l)) (file_lines content))) new /\
    files s' = files s.
Proof.
  intros HQ Hread.
  unfold verify_from_file, try_except.
  unfold bind at 1. unfold open_read. rewrite Hread.
  unfold bind at 1. unfold print at 1. unfold bind at 1. unfold print at 1.
  unfold bind at 1.
  match goal with
  | |- context [for_each ?l ?b ?st] =>
      destruct (for_each_collects Q b (loop_body_appends Q b (fun _ _ => eq_refl) HQ) l st)
        as (s1 & new & Hrun & Hres & Hall & _ & Hfs)
  end.
  rewrite Hrun. cbn [self results files] in Hres, Hfs.
  exists new, s1. split; [unfold bind, get_self, ret; rewrite Hres; reflexivity|].
  split; [exact Hres|]. rewrite read_tokens_filter in Hall. auto.
Qed.





End BatchProperties.

(** ** The JSON round trip *)

Ltac div_lia := zify; Z.to_euclidean_division_equations; lia.

(** A property checked on every number below a bound holds below it. *)
Lemma N_forall_below (n : nat) (f : N -> bool) :
  forallb f (map N.of_nat (seq 0 n)) = true ->
  forall x, (x < N.of_nat n)%N -> f x = true.
Proof.
  intros H x Hx. rewrite forallb_forall in H. apply H.
  apply in_map_iff. exists (N.to_nat x). split; [apply N2Nat.id|].
  apply in_seq. lia.
Qed.

Lemma pystr_eqb_eq (a b : pystr) : pystr_eqb a b = true <-> a = b.
Proof.
  revert b. induction a as [|x a IH]; intros [|y b]; cbn; try (split; congruence).
  rewrite andb_true_iff, N.eqb_eq, IH. split.
  - intros [-> ->]. reflexivity.
  - intros H. injection H as -> ->. auto.
Qed.

Lemma hex_value_hex_digit (d : N) : (d < 16)%N -> hex_value (hex_digit d) = Some d.
Proof.
  intros Hd.
  pose proof (N_forall_below 16
    (fun d => match hex_value (hex_digit d) with Some d' => N.eqb d' d | None => false end)
    eq_refl d Hd) as H.
  cbv beta in H. destruct (hex_value (hex_digit d)); [|discriminate].
  apply N.eqb_eq in H. congruence.
Qed.

Lemma decode_uXXXX_hex4 (n : N) (rest : pystr) :
  (n < 65536)%N -> decode_uXXXX (hex4 n ++ rest) = Some (n, rest).
Proof.
  intros Hn. unfold hex4, decode_uXXXX. cbn [app].
  rewrite !hex_value_hex_digit by (apply N.mod_lt; discriminate).
  do 2 f_equal. div_lia.
Qed.

(** The surrogates [escape_char] writes for a character above 65535, and
    the way [scanstring] joins them again. *)
Lemma lor_low_bits (h l : N) : (l < 1024)%N -> N.lor (h * 1024) l = (h * 1024 + l)%N.
Proof.
  intros Hl.
  assert (Hland : N.land (h * 1024) l = 0%N).
  { apply N.bits_inj_0. intros i. rewrite N.land_spec.
    destruct (N.lt_ge_cases i 10) as [Hi|Hi].
    - change 1024%N with (2 ^ 10)%N. rewrite N.mul_pow2_bits_low by exact Hi. reflexivity.
    - replace l with (l mod 2 ^ 10)%N by (apply N.mod_small; exact Hl).
      rewrite N.mod_pow2_bits_high by exact Hi. apply andb_false_r. }
  rewrite N.add_nocarry_lxor by exact Hland. symmetry. apply N.lxor_lor, Hland.
Qed.

Lemma surrogate_pair (n : N) :
  (n < 1048576)%N ->
  exists s1 s2,
    N.lor 55296 (N.land (N.shiftr n 10) 1023) = s1 /\
    N.lor 56320 (N.land n 1023) = s2 /\
    (s1 < 65536)%N /\ is_high_surrogate s1 = true /\
    (s2 < 65536)%N /\ is_low_surrogate s2 = true /\
    N.lor (N.shiftl (s1 - 55296) 10) (s2 - 56320) = n.
Proof.
  intros Hn.
  assert (Hq : (n / 1024 < 1024)%N) by div_lia.
  assert (Hr : (n mod 1024 < 1024)%N) by (apply N.mod_lt; discriminate).
  exists (55296 + n / 1024)%N, (56320 + n mod 1024)%N.
  split.
  { change 1023%N with (N.ones 10). rewrite N.land_ones, N.shiftr_div_pow2.
    change (2 ^ 10)%N with 1024%N. change 55296%N with (54 * 1024)%N.
    rewrite lor_low_bits by (apply N.mod_lt; discriminate).
    rewrite (N.mod_small (n / 1024)) by exact Hq. reflexivity. }
  split.
  { change 1023%N with (N.ones 10). rewrite N.land_ones.
    change (2 ^ 10)%N with 1024%N. change 56320%N with (55 * 1024)%N.
    apply lor_low_bits, Hr. }
  assert (Hdm : n = (n / 1024 * 1024 + n mod 1024)%N)
    by (rewrite N.mul_comm; apply N.div_mod; discriminate).
  revert Hq Hr Hdm. generalize (n / 1024)%N (n mod 1024)%N. intros q r Hq Hr Hdm.
  unfold is_high_surrogate, is_low_surrogate.
  repeat split; try lia.
  - apply andb_true_iff. split; apply N.leb_le; lia.
  - apply andb_true_iff. split; apply N.leb_le; lia.
  - rewrite N.shiftl_mul_pow2. change (2 ^ 10)%N with 1024%N.
    replace (55296 + q - 55296)%N with q by lia.
    replace (56320 + r - 56320)%N with r by lia.
    rewrite lor_low_bits by exact Hr. symmetry. exact Hdm.
Qed.

Lemma scanstring_unicode (fuel : nat) (tail : pystr) :
  scanstring (S fuel) (92 :: 117 :: tail)%N =
    match decode_uXXXX tail with
    | None => None
    | Some (uni, after) =>
        if is_high_surrogate uni then
          match after with
          | b :: u :: after' =>
              if ((b =? 92) && (u =? 117))%N then
                match decode_uXXXX after' with
                | None => None
                | Some (uni2, after2) =>
                    if is_low_surrogate uni2 then
                      cons_char
                        (65536 + N.lor (N.shiftl (uni - 55296) 10) (uni2 - 56320))%N
                        (scanstring fuel after2)
                    else cons_char uni (scanstring fuel after)
                end
              else cons_char uni (scanstring fuel after)
          | _ => cons_char uni (scanstring fuel after)
          end
        else cons_char uni (scanstring fuel after)
    end.
Proof. reflexivity. Qed.

(** A [\uXXXX] that is not a high surrogate followed by the escape of a
    low surrogate is read as a character of its own. *)
Lemma scanstring_bmp_escape (fuel : nat) (c : N) (after : pystr) :
  (c < 65536)%N ->
  (is_high_surrogate c = true ->
   forall after', after = (92 :: 117 :: after')%N ->
     exists uni2 after2,
       decode_uXXXX after' = Some (uni2, after2) /\ is_low_surrogate uni2 = false) ->
  scanstring (S fuel) ([92; 117]%N ++ hex4 c ++ after) = cons_char c (scanstring fuel after).
Proof.
  intros Hc H. cbn [app]. rewrite scanstring_unicode, decode_uXXXX_hex4 by exact Hc.
  destruct (is_high_surrogate c); [|reflexivity].
  destruct after as [|b [|u after']]; try reflexivity.
  destruct (N.eqb_spec b 92) as [->|]; [|reflexivity].
  destruct (N.eqb_spec u 117) as [->|]; [|reflexivity].
  destruct (H eq_refl after' eq_refl) as (uni2 & after2 & -> & ->). reflexivity.
Qed.

(** The two escapes of a character above 65535 are read as that
    character. *)
Lemma scanstring_pair_escape (fuel : nat) (c : N) (after : pystr) :
  (65536 <= c < 1114112)%N ->
  scanstring (S fuel) (escape_char c ++ after) = cons_char c (scanstring fuel after).
Proof.
  intros Hc. unfold escape_char.
  repeat match goal with
         | |- context [(c =? ?k)%N] =>
             destruct (N.eqb_spec c k); [lia|]
         end.
  replace ((32 <=? c) && (c <=? 126))%N with false
    by (symmetry; apply andb_false_iff; right; apply N.leb_gt; lia).
  replace (c <? 65536)%N with false by (symmetry; apply N.ltb_ge; lia).
  cbv zeta.
  destruct (surrogate_pair (c - 65536)) as (s1 & s2 & -> & -> & H1 & Hh & H2 & Hl & Hj);
    [lia|].
  rewrite <- !app_assoc. cbn [app].
  rewrite scanstring_unicode, decode_uXXXX_hex4 by exact H1.
  rewrite Hh. cbn [app N.eqb Pos.eqb andb].
  rewrite decode_uXXXX_hex4 by exact H2. rewrite Hl, Hj.
  replace (65536 + (c - 65536))%N with c by lia. reflexivity.
Qed.

(** What the escaped text of a string starts with, when it starts with
    [\u]: the four digits of a code unit that is not a low surrogate,
    unless the string starts with a low surrogate. *)
Lemma escaped_head (s rest after' : pystr) :
  match s with c :: _ => (c < 1114112)%N /\ is_low_surrogate c = false | [] => True end ->
  flat_map escape_char s ++ 34%N :: rest = (92 :: 117 :: after')%N ->
  exists uni2 after2,
    decode_uXXXX after' = Some (uni2, after2) /\ is_low_surrogate uni2 = false.
Proof.
  destruct s as [|c s]; [discriminate|]. intros [Hc Hlow]. cbn [flat_map].
  generalize (flat_map escape_char s). intros tail.
  unfold escape_char.
  repeat match goal with
         | |- context [(c =? ?k)%N] =>
             destruct (N.eqb_spec c k); [discriminate|]
         end.
  destruct ((32 <=? c) && (c <=? 126))%N.
  { cbn [app]. intros H. injection H as H _. congruence. }
  destruct (N.ltb_spec c 65536) as [Hlt|Hge].
  - rewrite <- app_assoc. cbn [app]. intros H.
    apply (f_equal (fun l => tl (tl l))) in H. cbn [tl] in H. subst after'.
    rewrite decode_uXXXX_hex4 by exact Hlt. eauto.
  - cbv zeta.
    destruct (surrogate_pair (c - 65536)) as (s1 & s2 & -> & -> & H1 & Hh & _); [lia|].
    rewrite <- !app_assoc. cbn [app]. intros H.
    apply (f_equal (fun l => tl (tl l))) in H. cbn [tl] in H. subst after'.
    rewrite decode_uXXXX_hex4 by exact H1. exists s1. eexists. split; [reflexivity|].
    unfold is_high_surrogate in Hh. unfold is_low_surrogate.
    apply andb_true_iff in Hh. destruct Hh as [_ Hh]. apply N.leb_le in Hh.
    apply andb_false_iff. left. apply N.leb_gt. lia.
Qed.

Lemma str_ok_cons (c : N) (s : pystr) :
  str_ok (c :: s) = true ->
  (c < 1114112)%N /\
  (is_high_surrogate c = true ->
   match s with c' :: _ => (c' < 1114112)%N /\ is_low_surrogate c' = false | [] => True end) /\
  str_ok s = true.
Proof.
  cbn [str_ok]. rewrite !andb_true_iff, negb_true_iff, N.ltb_lt.
  intros [[Hc Hpair] Hs]. repeat split; try assumption.
  intros Hh. rewrite Hh in Hpair. destruct s as [|c' s]; [exact I|].
  cbn [str_ok] in Hs. rewrite !andb_true_iff, N.ltb_lt in Hs.
  split; [tauto|exact Hpair].
Qed.

(** One character of an escaped string is read back. *)
Lemma scanstring_char (fuel : nat) (c : N) (s rest : pystr) :
  str_ok (c :: s) = true ->
  scanstring (S fuel) (escape_char c ++ flat_map escape_char s ++ 34%N :: rest)
  = cons_char c (scanstring fuel (flat_map escape_char s ++ 34%N :: rest)).
Proof.
  intros Hok. destruct (str_ok_cons c s Hok) as (Hc & Hnext & _).
  destruct (N.ltb_spec c 65536) as [Hlt|Hge];
    [|apply scanstring_pair_escape; lia].
  assert (Hbmp : scanstring (S fuel)
                   (([92; 117]%N ++ hex4 c) ++ flat_map escape_char s ++ 34%N :: rest)
                 = cons_char c (scanstring fuel (flat_map escape_char s ++ 34%N :: rest))).
  { rewrite <- app_assoc. apply scanstring_bmp_escape; [exact Hlt|].
    intros Hh after' Hafter. apply (escaped_head s rest after'); [apply Hnext, Hh|exact Hafter]. }
  revert Hbmp. generalize (flat_map escape_char s ++ 34%N :: rest). intros tail Hbmp.
  unfold escape_char.
  repeat match goal with
         | |- context [(c =? ?k)%N] =>
             destruct (N.eqb_spec c k) as [->|]; [reflexivity|]
         end.
  rewrite (proj2 (N.ltb_lt c 65536)) by exact Hlt.
  destruct ((32 <=? c) && (c <=? 126))%N eqn:Hp; [|exact Hbmp].
  apply andb_true_iff in Hp. destruct Hp as [H32 _]. apply N.leb_le in H32.
  cbn [app scanstring].
  rewrite (proj2 (N.eqb_neq c 34)), (proj2 (N.eqb_neq c 92)) by assumption.
  rewrite (proj2 (N.ltb_ge c 32)) by exact H32. reflexivity.
Qed.

(** A string written by [encode_string] is read back by [scanstring]. *)
Lemma scanstring_escaped (s : pystr) :
  str_ok s = true ->
  forall (fuel : nat) (rest : pystr),
    (List.length s < fuel)%nat ->
    scanstring fuel (flat_map escape_char s ++ 34%N :: rest) = Some (s, rest).
Proof.
  induction s as [|c s IH]; intros Hok fuel rest Hfuel.
  - destruct fuel; [inversion Hfuel|]. reflexivity.
  - destruct fuel as [|fuel]; [inversion Hfuel|].
    cbn [flat_map]. rewrite <- app_assoc, scanstring_char by exact Hok.
    destruct (str_ok_cons c s Hok) as (_ & _ & Hs).
    rewrite IH; [reflexivity|exact Hs|cbn in Hfuel; lia].
Qed.

Lemma escape_char_nonempty (c : N) : (1 <= List.length (escape_char c))%nat.
Proof.
  unfold escape_char.
  repeat match goal with
         | |- context [if ?b then _ else _] => destruct b; [cbn; lia|]
         end.
  cbn. lia.
Qed.

Lemma escaped_length (s : pystr) :
  (List.length s <= List.length (flat_map escape_char s))%nat.
Proof.
  induction s as [|c s IH]; [reflexivity|].
  cbn [flat_map]. rewrite length_app. pose proof (escape_char_nonempty c). cbn. lia.
Qed.

(** *** Integers *)

Lemma digits_value_snoc (ds : pystr) (c : N) :
  digits_value (ds ++ [c]) = digits_value ds * 10 + digit_value c.
Proof. unfold digits_value. rewrite fold_left_app. reflexivity. Qed.

Lemma decimal_digit_char (r : Z) :
  0 <= r < 10 ->
  is_digit (48 + Z.to_N r) = true /\ digit_value (48 + Z.to_N r) = r /\
  ((48 + Z.to_N r)%N = 48%N -> r = 0).
Proof.
  intros Hr. unfold is_digit, digit_value. repeat split.
  - apply andb_true_iff. split; apply N.leb_le; lia.
  - lia.
  - lia.
Qed.

(** The numeral [decimal_digits] builds: decimal digits, with no leading
    zero unless the number is zero, whose value is the number. *)
Lemma decimal_digits_spec (fuel : nat) :
  forall (n : Z) (acc : pystr),
    0 <= n < 2 ^ Z.of_nat (S fuel) ->
    exists d ds,
      decimal_digits (S fuel) n acc = d :: ds ++ acc /\
      is_digit d = true /\ forallb is_digit ds = true /\
      digits_value (d :: ds) = n /\
      (d = 48%N -> n = 0 /\ ds = []).
Proof.
  induction fuel as [|fuel IH]; intros n acc Hn.
  - change (2 ^ Z.of_nat 1) with 2 in Hn. cbn [decimal_digits].
    destruct (decimal_digit_char n) as (Hd & Hv & Hz); [lia|].
    rewrite Z.mod_small by lia.
    destruct (Z.ltb_spec n 10); [|lia].
    exists (48 + Z.to_N n)%N, []. cbn [app forallb].
    split; [reflexivity|]. split; [exact Hd|]. split; [reflexivity|].
    split; [exact Hv|]. intros H48. split; [apply Hz, H48|reflexivity].
  - remember (S fuel) as fuel1 eqn:Hf. cbn [decimal_digits].
    assert (Hr : 0 <= n mod 10 < 10) by (apply Z.mod_pos_bound; lia).
    destruct (decimal_digit_char (n mod 10) Hr) as (Hd & Hv & Hz).
    destruct (Z.ltb_spec n 10) as [Hlt|Hge].
    + exists (48 + Z.to_N (n mod 10))%N, []. cbn [app forallb].
      rewrite Z.mod_small in * by lia.
      split; [reflexivity|]. split; [exact Hd|]. split; [reflexivity|].
      split; [exact Hv|]. intros H48. split; [apply Hz, H48|reflexivity].
    + assert (Hq : 0 <= n / 10 < 2 ^ Z.of_nat fuel1).
      { rewrite Nat2Z.inj_succ, Z.pow_succ_r in Hn by lia.
        revert Hn. generalize (2 ^ Z.of_nat fuel1). intros p Hn. div_lia. }
      subst fuel1.
      destruct (IH (n / 10) ((48 + Z.to_N (n mod 10))%N :: acc) Hq)
        as (d & ds & Hrun & Hd' & Hds & Hval & Hzero).
      exists d, (ds ++ [(48 + Z.to_N (n mod 10))%N]).
      rewrite Hrun, <- app_assoc. split; [reflexivity|]. split; [exact Hd'|].
      split; [rewrite forallb_app, Hds; cbn [forallb andb]; rewrite Hd; reflexivity|].
      split.
      * change (d :: ds ++ [(48 + Z.to_N (n mod 10))%N])
          with ((d :: ds) ++ [(48 + Z.to_N (n mod 10))%N]).
        rewrite digits_value_snoc, Hval, Hv. div_lia.
      * intros H48. destruct (Hzero H48) as [H0 _]. div_lia.
Qed.

Lemma decimal_spec (n : Z) :
  0 <= n ->
  exists d ds,
    decimal n = d :: ds /\
    is_digit d = true /\ forallb is_digit ds = true /\
    digits_value (d :: ds) = n /\
    (d = 48%N -> n = 0 /\ ds = []).
Proof.
  intros Hn. unfold decimal.
  assert (Hb : 0 <= n < 2 ^ Z.of_nat (S (Z.to_nat (Z.log2 n)))).
  { split; [exact Hn|]. rewrite Nat2Z.inj_succ, Z2Nat.id by apply Z.log2_nonneg.
    destruct (Z.eq_dec n 0) as [->|Hn0]; [reflexivity|].
    apply Z.log2_spec. lia. }
  destruct (decimal_digits_spec _ n [] Hb) as (d & ds & Hrun & H).
  exists d, ds. rewrite Hrun, app_nil_r. auto.
Qed.

Lemma delimited_head (rest : pystr) :
  delimited rest = true ->
  match rest with
  | [] => True
  | c :: _ => c = 44%N \/ c = 10%N
  end.
Proof.
  destruct rest as [|c rest]; [auto|]. cbn.
  rewrite orb_true_iff, !N.eqb_eq. auto.
Qed.

Lemma span_digits_delimited (ds rest : pystr) :
  forallb is_digit ds = true ->
  delimited rest = true ->
  span_digits (ds ++ rest) = (ds, rest).
Proof.
  intros Hds Hrest. induction ds as [|c ds IH].
  - apply delimited_head in Hrest. destruct rest as [|c rest]; [reflexivity|].
    cbn. destruct Hrest as [-> | ->]; reflexivity.
  - cbn in Hds. apply andb_true_iff in Hds. destruct Hds as [Hc Hds].
    cbn [app span_digits]. rewrite Hc, IH by exact Hds. reflexivity.
Qed.

Lemma scan_frac_delimited (rest : pystr) :
  delimited rest = true -> scan_frac rest = ([], rest).
Proof.
  intros H. apply delimited_head in H. destruct rest as [|c rest]; [reflexivity|].
  destruct H as [-> | ->]; reflexivity.
Qed.

Lemma scan_exp_delimited (rest : pystr) :
  delimited rest = true -> scan_exp rest = ([], rest).
Proof.
  intros H. apply delimited_head in H. destruct rest as [|c rest]; [reflexivity|].
  destruct H as [-> | ->]; reflexivity.
Qed.

(** The numeral of a natural number is read back as its integer part. *)
Lemma scan_integer_decimal (n : Z) (rest : pystr) :
  0 <= n ->
  delimited rest = true ->
  exists ds,
    decimal n = ds /\ scan_integer (ds ++ rest) = Some (ds, rest) /\ digits_value ds = n /\
    match ds with c :: _ => is_digit c = true | [] => False end.
Proof.
  intros Hn Hrest.
  destruct (decimal_spec n Hn) as (d & ds & -> & Hd & Hds & Hval & Hzero).
  exists (d :: ds). split; [reflexivity|]. split; [|auto].
  cbn [app scan_integer]. destruct (N.eqb_spec d 48) as [H48|H48].
  - destruct (Hzero H48) as [_ ->]. reflexivity.
  - rewrite Hd, span_digits_delimited by assumption. reflexivity.
Qed.

(** [str(n)] is read back as the integer [n]. *)
Lemma scan_number_int (P : Platform) (n : Z) (rest : pystr) :
  delimited rest = true ->
  scan_number P (str_of_int n ++ rest) = Some (PInt n, rest).
Proof.
  intros Hrest. unfold str_of_int, scan_number.
  destruct (Z.ltb_spec n 0) as [Hneg|Hpos].
  - destruct (scan_integer_decimal (- n) rest) as (ds & -> & Hscan & Hval & _);
      [lia|exact Hrest|].
    cbn [app N.eqb Pos.eqb]. rewrite Hscan.
    rewrite scan_frac_delimited, scan_exp_delimited by exact Hrest.
    rewrite Hval. do 3 f_equal. lia.
  - destruct (scan_integer_decimal n rest) as (ds & -> & Hscan & Hval & Hhead);
      [lia|exact Hrest|].
    destruct ds as [|c ds]; [contradiction|]. cbn [app].
    replace (c =? 45)%N with false
      by (symmetry; apply N.eqb_neq; intros ->; discriminate).
    change (c :: ds ++ rest) with ((c :: ds) ++ rest). rewrite Hscan.
    rewrite scan_frac_delimited, scan_exp_delimited by exact Hrest.
    rewrite Hval. reflexivity.
Qed.

(** *** Values *)

(** Induction on a value, with the property known of the elements of a
    list and of the values of a dict. *)
Lemma pyval_nested_ind (Q : pyval -> Prop) :
  Q PNone ->
  (forall b, Q (PBool b)) ->
  (forall n, Q (PInt n)) ->
  (forall f, Q (PFloat f)) ->
  (forall s, Q (PStr s)) ->
  (forall l, Forall Q l -> Q (PList l)) ->
  (forall d, Forall (fun kv => Q (snd kv)) d -> Q (PDict d)) ->
  forall v, Q v.
Proof.
  intros HNone HBool HInt HFloat HStr HList HDict.
  exact (fix IH (v : pyval) : Q v :=
           match v with
           | PNone => HNone
           | PBool b => HBool b
           | PInt n => HInt n
           | PFloat f => HFloat f
           | PStr s => HStr s
           | PList l =>
               HList l
                 ((fix elements (l : list pyval) : Forall Q l :=
                     match l with
                     | [] => Forall_nil Q
                     | x :: l' => Forall_cons x (IH x) (elements l')
                     end) l)
           | PDict d =>
               HDict d
                 ((fix members (d : pydict) : Forall (fun kv => Q (snd kv)) d :=
                     match d with
                     | [] => Forall_nil _
                     | kv :: d' =>
                         Forall_cons (P := fun kv => Q (snd kv)) kv (IH (snd kv)) (members d')
                     end) d)
           end).
Qed.

Section RoundTrip.

Variable P : Platform.

Lemma skip_ws_indent (n : nat) (s : pystr) :
  skip_ws (repeat 32%N n ++ s) = skip_ws s.
Proof. induction n as [|n IH]; [reflexivity|exact IH]. Qed.

Lemma skip_ws_newline_indent (level : nat) (s : pystr) :
  skip_ws (newline_indent level ++ s) = skip_ws s.
Proof. unfold newline_indent. cbn [app skip_ws is_ws N.eqb Pos.eqb orb]. apply skip_ws_indent. Qed.

Lemma starts_value_encode (level : nat) (v : pyval) :
  json_stable v = true -> starts_value (json_encode P level v).
Proof.
  unfold starts_value.
  destruct v as [ | [|] | n | f | s | [|x l] | [|kv d] ]; cbn [json_stable];
    intros Hv; try discriminate;
    try (eexists; eexists; split; [reflexivity|]; split; [reflexivity|discriminate]).
  cbn [json_encode]. unfold str_of_int. destruct (Z.ltb_spec n 0) as [Hneg|Hpos].
  - eexists; eexists; split; [reflexivity|]; split; [reflexivity|discriminate].
  - destruct (decimal_spec n Hpos) as (c & ds & -> & Hc & _).
    exists c, ds. split; [reflexivity|]. unfold is_digit in Hc.
    apply andb_true_iff in Hc. destruct Hc as [H1 H2].
    apply N.leb_le in H1, H2. split; [|lia].
    unfold is_ws. repeat (apply orb_false_iff; split); apply N.eqb_neq; lia.
Qed.

Lemma skip_ws_starts_value (s rest : pystr) :
  starts_value s -> skip_ws (s ++ rest) = s ++ rest.
Proof.
  intros (c & tl & -> & Hws & _). cbn [app skip_ws]. rewrite Hws. reflexivity.
Qed.

(** How [parse_value] starts on a quote, a brace and a bracket. *)
Lemma parse_value_string (fuel : nat) (rest : pystr) :
  parse_value P (S fuel) (34%N :: rest) =
    match scanstring (List.length rest) rest with
    | Some (text, r) => Some (PStr text, r)
    | None => None
    end.
Proof. reflexivity. Qed.

Lemma parse_value_object (fuel : nat) (rest : pystr) :
  parse_value P (S fuel) (123%N :: rest) =
    match skip_ws rest with
    | c' :: rest' =>
        if (c' =? 125)%N then Some (PDict [], rest')
        else
          match parse_members (parse_value P fuel) (List.length rest) (c' :: rest') with
          | Some (kvs, r) => Some (PDict (dict_of_pairs kvs), r)
          | None => None
          end
    | [] => None
    end.
Proof. reflexivity. Qed.

Lemma parse_value_array (fuel : nat) (rest : pystr) :
  parse_value P (S fuel) (91%N :: rest) =
    match skip_ws rest with
    | c' :: rest' =>
        if (c' =? 93)%N then Some (PList [], rest')
        else
          match parse_elements (parse_value P fuel) (List.length rest) (c' :: rest') with
          | Some (vs, r) => Some (PList vs, r)
          | None => None
          end
    | [] => None
    end.
Proof. reflexivity. Qed.

(** On a digit or a minus sign, [parse_value] reads a number. *)
Lemma parse_value_number (fuel : nat) (c : N) (tl : pystr) (r : pyval * pystr) :
  is_digit c = true \/ c = 45%N ->
  scan_number P (c :: tl) = Some r ->
  parse_value P (S fuel) (c :: tl) = Some r.
Proof.
  intros Hc Hscan.
  assert (H : forall k, In k [34; 123; 91; 110; 116; 102]%N -> (c =? k)%N = false).
  { intros k Hk. apply N.eqb_neq. intros ->. unfold is_digit in Hc.
    cbn [In] in Hk.
    repeat (destruct Hk as [<-|Hk]; [destruct Hc; discriminate|]). contradiction. }
  cbn [parse_value]. rewrite !H by (cbn; tauto).
  change (str "null") with [110; 117; 108; 108]%N.
  change (str "true") with [116; 114; 117; 101]%N.
  change (str "false") with [102; 97; 108; 115; 101]%N.
  cbn [strip_prefix]. rewrite !(N.eqb_sym _ c), !H by (cbn; tauto).
  rewrite Hscan. reflexivity.
Qed.

Lemma delimited_newline_indent (level : nat) (s : pystr) :
  delimited (newline_indent level ++ s) = true.
Proof. reflexivity. Qed.

Lemma skip_ws_close (level : nat) (c : N) (rest : pystr) :
  is_ws c = false ->
  skip_ws (newline_indent level ++ c :: rest) = c :: rest.
Proof.
  intros Hc. rewrite skip_ws_newline_indent. cbn [skip_ws]. rewrite Hc. reflexivity.
Qed.

(** The elements of a list, written one per line, are read back. *)
Lemma parse_elements_encode (fuel level : nat) (l : list pyval) :
  forall (x : pyval) (n : nat) (rest : pystr),
    Forall (reads_back P fuel (S level)) (x :: l) ->
    (List.length l < n)%nat ->
    parse_elements (parse_value P fuel) n
      (json_encode P (S level) x
       ++ flat_map (fun y => (44%N :: newline_indent (S level)) ++ y)
            (map (json_encode P (S level)) l)
       ++ newline_indent level ++ 93%N :: rest)
    = Some (x :: l, rest).
Proof.
  induction l as [|y l IH]; intros x n rest Hall Hn;
    (destruct n as [|n]; [inversion Hn|]);
    inversion Hall as [|? ? [Hx Hread] Hall']; subst; cbn [parse_elements map flat_map].
  - cbn [app]. rewrite Hread by apply delimited_newline_indent.
    rewrite skip_ws_close by reflexivity. reflexivity.
  - rewrite <- !app_assoc. cbn [app]. rewrite Hread by reflexivity.
    cbn [skip_ws is_ws N.eqb Pos.eqb orb].
    inversion Hall' as [|? ? [Hy _] _]; subst.
    rewrite skip_ws_newline_indent, skip_ws_starts_value
      by (apply starts_value_encode; exact Hy).
    rewrite IH; [reflexivity|exact Hall'|cbn in Hn; lia].
Qed.

(** Reading one member: the key, the colon, the value, and then either
    the closing brace or a comma and the next member. *)
Lemma parse_members_step (value : pystr -> option (pyval * pystr)) (n : nat)
      (k tail : pystr) :
  str_ok k = true ->
  parse_members value (S n) (encode_string k ++ 58%N :: 32%N :: tail) =
    match value (skip_ws tail) with
    | None => None
    | Some (v, s3) =>
        match skip_ws s3 with
        | c' :: s4 =>
            if (c' =? 125)%N then Some ([(k, v)], s4)
            else if (c' =? 44)%N then
              match parse_members value n (skip_ws s4) with
              | Some (kvs, r) => Some ((k, v) :: kvs, r)
              | None => None
              end
            else None
        | [] => None
        end
    end.
Proof.
  intros Hk. unfold encode_string. cbn [app parse_members N.eqb Pos.eqb].
  rewrite <- app_assoc. cbn [app].
  rewrite scanstring_escaped;
    [|exact Hk|rewrite length_app; pose proof (escaped_length k); cbn; lia].
  reflexivity.
Qed.

(** The members of a dict, written one per line, are read back. *)
Lemma parse_members_encode (fuel level : nat) (d : pydict) :
  forall (kv : pystr * pyval) (n : nat) (rest : pystr),
    Forall (fun kv => str_ok (fst kv) = true /\ reads_back P fuel (S level) (snd kv)) (kv :: d) ->
    (List.length d < n)%nat ->
    parse_members (parse_value P fuel) n
      (encode_string (fst kv) ++ 58%N :: 32%N :: json_encode P (S level) (snd kv)
       ++ flat_map (fun y => 44%N :: newline_indent (S level) ++ y)
            (map (fun kv => encode_string (fst kv) ++ 58%N :: 32%N
                            :: json_encode P (S level) (snd kv)) d)
       ++ newline_indent level ++ 125%N :: rest)
    = Some (kv :: d, rest).
Proof.
  induction d as [|kv' d IH]; intros [k v] n rest Hall Hn;
    (destruct n as [|n]; [inversion Hn|]);
    inversion Hall as [|? ? [Hk [Hv Hread]] Hall']; subst;
    cbn [fst snd] in *; cbn [map flat_map];
    rewrite parse_members_step by exact Hk;
    rewrite skip_ws_starts_value by (apply starts_value_encode; exact Hv).
  - cbn [app]. rewrite Hread by apply delimited_newline_indent.
    rewrite skip_ws_close by reflexivity. reflexivity.
  - cbn [app]. rewrite <- ?app_assoc. cbn [app]. rewrite Hread by reflexivity.
    cbn [skip_ws is_ws N.eqb Pos.eqb orb].
    rewrite skip_ws_newline_indent.
    assert (Hstart : starts_value (encode_string (fst kv')))
      by (eexists; eexists; split; [reflexivity|]; split; [reflexivity|discriminate]).
    rewrite skip_ws_starts_value by exact Hstart.
    rewrite IH; [reflexivity|exact Hall'|cbn in Hn; lia].
Qed.

(** [dict(pairs)] of pairs with distinct keys is the list of pairs. *)
Lemma distinct_NoDup (keys : list pystr) : distinct keys = true -> NoDup keys.
Proof.
  induction keys as [|k keys IH]; [constructor|].
  cbn [distinct]. rewrite andb_true_iff, negb_true_iff. intros [Hk Hrest].
  constructor; [|apply IH, Hrest].
  intros Hin. assert (Hex : existsb (pystr_eqb k) keys = true); [|congruence].
  apply existsb_exists. exists k. split; [exact Hin|apply pystr_eqb_eq; reflexivity].
Qed.

Lemma dict_set_fresh (d : pydict) (k : pystr) (v : pyval) :
  ~ In k (map fst d) -> dict_set d k v = d ++ [(k, v)].
Proof.
  induction d as [|[k' v'] d IH]; intros Hk; [reflexivity|].
  cbn [dict_set app]. destruct (pystr_eqb k' k) eqn:He.
  - apply pystr_eqb_eq in He. elim Hk. left. exact He.
  - rewrite IH; [reflexivity|]. intros Hin. apply Hk. right. exact Hin.
Qed.

Lemma dict_of_pairs_distinct (d : pydict) :
  distinct (map fst d) = true -> dict_of_pairs d = d.
Proof.
  intros Hd. apply distinct_NoDup in Hd. unfold dict_of_pairs.
  enough (H : forall pairs acc,
             NoDup (map fst (acc ++ pairs)) ->
             fold_left (fun d kv => dict_set d (fst kv) (snd kv)) pairs acc = acc ++ pairs)
    by (apply (H d []); exact Hd).
  induction pairs as [|[k v] pairs IH]; intros acc Hnd; cbn [fold_left fst snd].
  - symmetry. apply app_nil_r.
  - rewrite dict_set_fresh.
    + rewrite IH; rewrite <- app_assoc; [reflexivity|exact Hnd].
    + rewrite map_app in Hnd. cbn [map fst] in Hnd.
      apply NoDup_remove_2 in Hnd. intros Hin. apply Hnd, in_or_app. left. exact Hin.
Qed.

Lemma starts_value_app (s rest : pystr) : starts_value s -> starts_value (s ++ rest).
Proof.
  intros (c & tl & -> & Hws & Hc). exists c, (tl ++ rest). auto.
Qed.

Lemma parse_value_array_nonempty (fuel : nat) (rest0 s : pystr) :
  skip_ws rest0 = s ->
  starts_value s ->
  parse_value P (S fuel) (91%N :: rest0) =
    match parse_elements (parse_value P fuel) (List.length rest0) s with
    | Some (vs, r) => Some (PList vs, r)
    | None => None
    end.
Proof.
  intros <- (c & tl & Heq & _ & Hc). rewrite parse_value_array, Heq.
  rewrite (proj2 (N.eqb_neq c 93)) by exact Hc. reflexivity.
Qed.

Lemma parse_value_object_nonempty (fuel : nat) (rest0 s : pystr) :
  skip_ws rest0 = s ->
  (exists tl, s = 34%N :: tl) ->
  parse_value P (S fuel) (123%N :: rest0) =
    match parse_members (parse_value P fuel) (List.length rest0) s with
    | Some (kvs, r) => Some (PDict (dict_of_pairs kvs), r)
    | None => None
    end.
Proof.
  intros <- (tl & Heq). rewrite parse_value_object, Heq. reflexivity.
Qed.

Lemma separated_length {A} (sep : pystr) (f : A -> pystr) (l : list A) :
  (List.length l <= List.length (flat_map (fun y => 44%N :: sep ++ y) (map f l)))%nat.
Proof.
  induction l as [|x l IH]; [reflexivity|].
  cbn [map flat_map]. rewrite length_app.
  change (List.length (44%N :: sep ++ f x)) with (S (List.length (sep ++ f x))).
  change (List.length (x :: l)) with (S (List.length l)). lia.
Qed.

Lemma str_of_int_head (n : Z) :
  exists c tl, str_of_int n = c :: tl /\ (is_digit c = true \/ c = 45%N).
Proof.
  unfold str_of_int. destruct (Z.ltb_spec n 0) as [Hneg|Hpos].
  - eauto.
  - destruct (decimal_spec n Hpos) as (c & ds & -> & Hc & _). eauto.
Qed.

Lemma depth_element (l : list pyval) (x : pyval) :
  In x l -> (depth x <= list_max (map depth l))%nat.
Proof.
  intros Hin. assert (H : Forall (fun k => (k <= list_max (map depth l))%nat) (map depth l))
    by (apply list_max_le; lia).
  rewrite Forall_forall in H. apply H, in_map, Hin.
Qed.

Lemma depth_member (d : pydict) (kv : pystr * pyval) :
  In kv d -> (depth (snd kv) <= list_max (map (fun kv => depth (snd kv)) d))%nat.
Proof.
  intros Hin.
  assert (H : Forall (fun k => (k <= list_max (map (fun kv => depth (snd kv)) d))%nat)
                (map (fun kv => depth (snd kv)) d))
    by (apply list_max_le; lia).
  rewrite Forall_forall in H. apply H. apply (in_map (fun kv => depth (snd kv))), Hin.
Qed.

(** The text [json_encode] writes for a stable value is read back by
    [parse_value] as that value, whatever delimiter follows, when the fuel
    exceeds the nesting of the value. *)
Lemma parse_value_encode (v : pyval) :
  json_stable v = true ->
  forall (level fuel : nat) (rest : pystr),
    (depth v < fuel)%nat ->
    delimited rest = true ->
    parse_value P fuel (json_encode P level v ++ rest) = Some (v, rest).
Proof.
  induction v as [ | b | n | f | s | l IH | d IH ] using pyval_nested_ind;
    intros Hst level fuel rest Hfuel Hrest;
    (destruct fuel as [|fuel]; [inversion Hfuel|]).
  - reflexivity.
  - destruct b; reflexivity.
  - cbn [json_encode].
    destruct (str_of_int_head n) as (c & tl & Heq & Hc).
    pose proof (scan_number_int P n rest Hrest) as Hscan.
    rewrite Heq in *. apply parse_value_number; assumption.
  - discriminate.
  - cbn [json_encode json_stable] in *. unfold encode_string. cbn [app].
    rewrite parse_value_string, <- app_assoc. cbn [app].
    rewrite scanstring_escaped;
      [reflexivity|exact Hst|rewrite length_app; pose proof (escaped_length s); cbn; lia].
  - destruct l as [|x l]; [reflexivity|].
    cbn [json_encode map join_items]. rewrite <- !app_assoc. cbn [app].
    erewrite parse_value_array_nonempty;
      [|rewrite skip_ws_newline_indent; apply skip_ws_starts_value
       |apply starts_value_app].
    2, 3: apply starts_value_encode; cbn [json_stable forallb] in Hst;
          apply andb_true_iff in Hst; apply Hst.
    rewrite parse_elements_encode; [reflexivity| |].
    + apply Forall_forall. intros y Hy. split.
      * cbn [json_stable] in Hst. rewrite forallb_forall in Hst. apply Hst, Hy.
      * intros rest' Hrest'. rewrite Forall_forall in IH. apply IH; try assumption.
        -- cbn [json_stable] in Hst. rewrite forallb_forall in Hst. apply Hst, Hy.
        -- cbn [depth] in Hfuel. pose proof (depth_element _ _ Hy). lia.
    + eapply Nat.le_lt_trans;
        [exact (separated_length (newline_indent (S level)) (json_encode P (S level)) l)|].
      rewrite !length_app. cbn [List.length]. lia.
  - destruct d as [|kv d]; [reflexivity|].
    cbn [json_stable] in Hst. apply andb_true_iff in Hst. destruct Hst as [Hkeys Hst].
    cbn [json_encode map join_items]. rewrite <- !app_assoc. cbn [app].
    erewrite parse_value_object_nonempty;
      [|rewrite skip_ws_newline_indent; apply skip_ws_starts_value;
        eexists; eexists; split; [reflexivity|]; split; [reflexivity|discriminate]
       |eexists; reflexivity].
    rewrite parse_members_encode.
    + rewrite dict_of_pairs_distinct by exact Hkeys. reflexivity.
    + apply Forall_forall. intros y Hy. rewrite forallb_forall in Hst.
      specialize (Hst y Hy). apply andb_true_iff in Hst. destruct Hst as [Hk Hv].
      split; [exact Hk|]. split; [exact Hv|].
      intros rest' Hrest'. rewrite Forall_forall in IH. apply IH; try assumption.
      cbn [depth] in Hfuel. pose proof (depth_member _ _ Hy). lia.
    + rewrite !length_app. cbn [List.length]. rewrite !length_app.
      match goal with
      | |- (?n < _)%nat =>
          match goal with
          | |- context [List.length (flat_map ?g ?m)] =>
              assert (H : (n <= List.length (flat_map g m))%nat)
                by exact (separated_length (newline_indent (S level))
                            (fun kv => encode_string (fst kv) ++ 58%N :: 32%N
                                       :: json_encode P (S level) (snd kv)) d);
              revert H; generalize (List.length (flat_map g m)); generalize n
          end
      end.
      intros. lia.
Qed.

Lemma join_items_length_in (sep : pystr) (items : list pystr) (y : pystr) :
  In y items -> (List.length y <= List.length (join_items sep items))%nat.
Proof.
  destruct items as [|x items]; [contradiction|]. cbn [join_items].
  rewrite length_app. intros [->|Hin]; [lia|].
  enough (List.length y <= List.length (flat_map (fun y => sep ++ y) items))%nat by lia.
  induction items as [|z items IH]; [contradiction|].
  cbn [flat_map]. rewrite !length_app. destruct Hin as [->|Hin]; [lia|].
  specialize (IH Hin). lia.
Qed.

(** The text of a stable value is longer than the value is deep, so the
    length of the text is fuel enough to read it. *)
Lemma depth_lt_length (v : pyval) :
  json_stable v = true ->
  forall level, (depth v < List.length (json_encode P level v))%nat.
Proof.
  induction v as [ | b | n | f | s | l IH | d IH ] using pyval_nested_ind;
    intros Hst level;
    try (destruct (starts_value_encode level _ Hst) as (c & tl & -> & _); cbn; lia).
  - destruct l as [|x l]; [cbn; lia|].
    cbn [json_encode depth]. rewrite !length_app. cbn [List.length newline_indent].
    enough (list_max (map depth (x :: l))
            < List.length (join_items (44%N :: newline_indent (S level))
                             (map (json_encode P (S level)) (x :: l))))%nat by lia.
    apply list_max_lt; [discriminate|]. apply Forall_forall. intros k Hk.
    apply in_map_iff in Hk. destruct Hk as (y & <- & Hy).
    rewrite Forall_forall in IH. cbn [json_stable] in Hst. rewrite forallb_forall in Hst.
    eapply Nat.lt_le_trans; [apply (IH y Hy (Hst y Hy) (S level))|].
    apply join_items_length_in, in_map, Hy.
  - destruct d as [|kv d]; [cbn; lia|].
    cbn [json_stable] in Hst. apply andb_true_iff in Hst. destruct Hst as [_ Hst].
    cbn [json_encode depth]. rewrite !length_app. cbn [List.length newline_indent].
    match goal with
    | |- context [join_items ?sep (map ?f (kv :: d))] =>
        enough (list_max (map (fun kv => depth (snd kv)) (kv :: d))
                < List.length (join_items sep (map f (kv :: d))))%nat by lia;
        apply list_max_lt; [discriminate|]; apply Forall_forall; intros k Hk;
        apply in_map_iff in Hk; destruct Hk as (y & <- & Hy);
        rewrite Forall_forall in IH; rewrite forallb_forall in Hst;
        specialize (Hst y Hy); apply andb_true_iff in Hst; destruct Hst as [_ Hv];
        eapply Nat.lt_le_trans; [apply (IH y Hy Hv (S level))|];
        eapply Nat.le_trans; [|apply (join_items_length_in sep (map f (kv :: d)) (f y)),
                                 (in_map f), Hy];
        cbv beta; rewrite !length_app; lia
    end.
Qed.

(** Reading the text written for a stable value gives the value. *)
Lemma json_loads_encode (v : pyval) :
  json_stable v = true -> json_loads P (json_encode P 0 v) = Ok v.
Proof.
  intros Hst. unfold json_loads.
  pose proof (depth_lt_length v Hst 0) as Hfuel.
  pose proof (skip_ws_starts_value _ [] (starts_value_encode 0 v Hst)) as Hskip.
  rewrite app_nil_r in Hskip. rewrite Hskip.
  pose proof (parse_value_encode v Hst 0 _ [] Hfuel eq_refl) as Hparse.
  rewrite app_nil_r in Hparse. rewrite Hparse. reflexivity.
Qed.

End RoundTrip.

Section ReportProperties.

Variable P : Platform.
Variable World : Type.

(** The text [save_results_json] writes for stable results reads back as
    the list of results. *)
Lemma save_results_json_reads_back (output_file : pystr) (s : State World) :
  fs_write_error (files s) output_file = None ->
  json_stable (PList (map PDict (results (self s)))) = true ->
  exists s' text,
    save_results_json P World output_file s = (Ok tt, s') /\
    fs_read (files s') output_file = Ok text /\
    json_loads P text = Ok (PList (map PDict (results (self s)))).
Proof.
  intros Hwrite Hstable.
  unfold save_results_json, try_except, bind, get_self, write_file, print.
  rewrite Hwrite. eexists. eexists. split; [reflexivity|].
  cbn [files fs_read].
  rewrite (proj2 (pystr_eqb_eq output_file output_file) eq_refl).
  split; [reflexivity|]. apply json_loads_encode, Hstable.
Qed.


End ReportProperties.

(** ** Results the program builds are stable under JSON *)

Lemma is_ascii_app (a b : pystr) : is_ascii (a ++ b) = is_ascii a && is_ascii b.
Proof. apply forallb_app. Qed.

Lemma ascii_not_high (c : N) : (c <? 128)%N = true -> is_high_surrogate c = false.
Proof.
  intros Hc. apply N.ltb_lt in Hc. unfold is_high_surrogate.
  apply andb_false_iff. left. apply N.leb_gt. lia.
Qed.

(** ASCII text in front of a proper string gives a proper string. *)
Lemma str_ok_ascii_app (a b : pystr) :
  is_ascii a = true -> str_ok b = true -> str_ok (a ++ b) = true.
Proof.
  intros Ha Hb. induction a as [|c a IH]; [exact Hb|].
  cbn [is_ascii forallb] in Ha. apply andb_true_iff in Ha. destruct Ha as [Hc Ha].
  cbn [app str_ok]. rewrite (ascii_not_high c Hc), (IH Ha).
  apply N.ltb_lt in Hc. rewrite (proj2 (N.ltb_lt c 1114112)) by lia. reflexivity.
Qed.

Lemma str_ok_ascii (s : pystr) : is_ascii s = true -> str_ok s = true.
Proof.
  intros Hs. rewrite <- (app_nil_r s). apply str_ok_ascii_app; [exact Hs|reflexivity].
Qed.

Lemma decimal_digits_ascii (fuel : nat) :
  forall (n : Z) (acc : pystr),
    is_ascii acc = true -> is_ascii (decimal_digits fuel n acc) = true.
Proof.
  induction fuel as [|fuel IH]; intros n acc Hacc; [exact Hacc|].
  cbn [decimal_digits].
  assert (Hd : is_ascii ((48 + Z.to_N (n mod 10))%N :: acc) = true).
  { cbn [is_ascii forallb]. fold (is_ascii acc). rewrite Hacc, andb_true_r.
    apply N.ltb_lt. pose proof (Z.mod_pos_bound n 10). lia. }
  destruct (n <? 10); [exact Hd|]. apply IH, Hd.
Qed.

Lemma decimal_ascii (n : Z) : is_ascii (decimal n) = true.
Proof. apply decimal_digits_ascii. reflexivity. Qed.

Lemma str_of_int_ascii (n : Z) : is_ascii (str_of_int n) = true.
Proof.
  unfold str_of_int. destruct (n <? 0); [|apply decimal_ascii].
  cbn [is_ascii forallb]. apply decimal_ascii.
Qed.

Lemma zero_pad_ascii (w : nat) (s : pystr) :
  is_ascii s = true -> is_ascii (zero_pad w s) = true.
Proof.
  intros Hs. unfold zero_pad. rewrite is_ascii_app, Hs, andb_true_r.
  induction (w - List.length s)%nat as [|k IH]; [reflexivity|exact IH].
Qed.

Lemma strftime_ascii (P : Platform) (dt : datetime) :
  is_ascii (strftime P dt timestamp_format) = true.
Proof.
  rewrite strftime_timestamp_format.
  repeat (rewrite is_ascii_app; apply andb_true_iff; split);
    try reflexivity; apply zero_pad_ascii, decimal_ascii.
Qed.

Lemma get_creation_date_ascii (P : Platform) (user_id : pyval) :
  exists c, get_creation_date P user_id = Ok (PStr c) /\ is_ascii c = true.
Proof.
  destruct (get_creation_date_cases P user_id) as [[H _]|(n & dt & _ & _ & _ & H)].
  - exists NA. auto.
  - exists (strftime P dt timestamp_format). split; [exact H|apply strftime_ascii].
Qed.

Lemma type_name_ascii (v : pyval) : is_ascii (type_name v) = true.
Proof. destruct v; reflexivity. Qed.

(** What a stable dict holds under a key is stable. *)
Lemma dict_get_stable (d : pydict) (key : pystr) (default : pyval) :
  json_stable (PDict d) = true ->
  json_stable default = true ->
  json_stable (dict_get d key default) = true.
Proof.
  cbn [json_stable]. rewrite andb_true_iff. intros [_ Hd] Hdef. unfold dict_get.
  induction d as [|[k v] d IH]; [exact Hdef|].
  cbn [forallb fst snd] in Hd. rewrite !andb_true_iff in Hd. destruct Hd as [[_ Hv] Hd].
  cbn [dict_lookup]. destruct (pystr_eqb k key); [exact Hv|apply IH, Hd].
Qed.

(** A record with the ten fields is stable when its values are. *)
Lemma record_stable (r : pydict) :
  dict_keys r = result_fields ->
  forallb (fun kv => json_stable (snd kv)) r = true ->
  json_stable (PDict r) = true.
Proof.
  intros Hkeys Hvals. cbn [json_stable]. unfold dict_keys in Hkeys. rewrite Hkeys.
  apply andb_true_iff. split; [reflexivity|].
  assert (Hk : forallb str_ok (map fst r) = true) by (rewrite Hkeys; reflexivity).
  clear Hkeys. induction r as [|kv r IH]; [reflexivity|].
  cbn [forallb map] in *. apply andb_true_iff in Hvals, Hk.
  destruct Hvals as [Hv Hvals], Hk as [Hk Hks].
  rewrite Hk, Hv, IH by assumption. reflexivity.
Qed.

Lemma invalid_record_stable (token status : pystr) :
  str_ok token = true -> str_ok status = true ->
  json_stable (PDict (invalid_record token status)) = true.
Proof.
  intros Ht Hs. apply record_stable; [reflexivity|].
  cbn [invalid_record forallb snd json_stable]. rewrite Ht, Hs. reflexivity.
Qed.

Lemma valid_record_stable (token : pystr) (d : pydict) (c : pystr) :
  str_ok token = true -> json_stable (PDict d) = true -> is_ascii c = true ->
  json_stable (PDict (valid_record token d (PStr c))) = true.
Proof.
  intros Ht Hd Hc. apply record_stable; [reflexivity|].
  cbn [valid_record forallb snd]. rewrite !dict_get_stable by (exact Hd || reflexivity).
  cbn [json_stable]. rewrite Ht, (str_ok_ascii c Hc). reflexivity.
Qed.

(** *** Credentials read from proper text are proper strings *)

Lemma str_ok_app_r (a b : pystr) : str_ok (a ++ b) = true -> str_ok b = true.
Proof.
  induction a as [|c a IH]; [auto|]. cbn [app str_ok]. rewrite !andb_true_iff.
  intros [_ H]. apply IH, H.
Qed.

Lemma str_ok_app_l (a b : pystr) : str_ok (a ++ b) = true -> str_ok a = true.
Proof.
  induction a as [|c a IH]; [reflexivity|]. cbn [app str_ok]. rewrite !andb_true_iff.
  intros [[Hc Hpair] H]. rewrite (IH H). repeat split; try assumption.
  destruct a as [|c' a]; [|exact Hpair].
  rewrite andb_false_r. reflexivity.
Qed.

Lemma str_ok_factor (a s b : pystr) : str_ok (a ++ s ++ b) = true -> str_ok s = true.
Proof. intros H. apply str_ok_app_r in H. apply str_ok_app_l in H. exact H. Qed.

Lemma lstrip_suffix (s : pystr) : exists p, s = p ++ lstrip s.
Proof.
  induction s as [|c s [p IH]]; [exists []; reflexivity|].
  cbn [lstrip]. destruct (py_isspace c).
  - exists (c :: p). cbn [app]. rewrite <- IH. reflexivity.
  - exists []. reflexivity.
Qed.

Lemma strip_factor (s : pystr) : exists p q, s = p ++ strip s ++ q.
Proof.
  destruct (lstrip_suffix s) as [p Hp].
  destruct (lstrip_suffix (rev (lstrip s))) as [q Hq].
  exists p, (rev q). unfold strip. rewrite <- rev_app_distr, <- Hq, rev_involutive.
  exact Hp.
Qed.

Lemma split_lines_factor (s : pystr) :
  forall cur l, In l (split_lines cur s) -> exists a b, cur ++ s = a ++ l ++ b.
Proof.
  induction s as [|c s IH]; intros cur l Hin.
  - cbn [split_lines] in Hin. destruct cur as [|x cur]; [contradiction|].
    destruct Hin as [<-|[]]. exists [], []. rewrite !app_nil_r. reflexivity.
  - cbn [split_lines] in Hin. destruct (c =? 10)%N.
    + destruct Hin as [<-|Hin].
      * exists [], s. cbn [app]. rewrite <- app_assoc. reflexivity.
      * destruct (IH [] l Hin) as (a & b & Hab). cbn [app] in Hab.
        exists (cur ++ c :: a), b. rewrite Hab, <- app_assoc. reflexivity.
    + destruct (IH (cur ++ [c]) l Hin) as (a & b & Hab).
      exists a, b. rewrite <- Hab, <- app_assoc. reflexivity.
Qed.

(** Translating line ends neither spoils a string nor brings a low
    surrogate to the front. *)
Lemma universal_newlines_ok (n : nat) :
  forall s, (List.length s <= n)%nat ->
    str_ok s = true ->
    str_ok (universal_newlines s) = true /\
    match universal_newlines s with
    | c2 :: _ =>
        is_low_surrogate c2 = true ->
        match s with c1 :: _ => is_low_surrogate c1 = true | [] => False end
    | [] => True
    end.
Proof.
  induction n as [|n IH]; intros s Hn Hok.
  - destruct s; [split; [reflexivity|exact I]|cbn in Hn; lia].
  - destruct s as [|c rest]; [split; [reflexivity|exact I]|]. cbn [List.length] in Hn.
    cbn [str_ok] in Hok. rewrite !andb_true_iff, negb_true_iff in Hok.
    destruct Hok as [[Hc Hpair] Hrest]. cbn [universal_newlines].
    destruct (c =? 13)%N.
    + split; [|discriminate].
      destruct rest as [|c' rest']; [reflexivity|].
      cbn [List.length] in Hn.
      destruct (c' =? 10)%N.
      * cbn [str_ok] in Hrest. rewrite !andb_true_iff in Hrest.
        destruct (IH rest') as [H _]; [lia|tauto|]. cbn [str_ok]. rewrite H. reflexivity.
      * destruct (IH (c' :: rest')) as [H _]; [cbn; lia|exact Hrest|].
        cbn [str_ok]. rewrite H. reflexivity.
    + destruct (IH rest) as [H Hhead]; [lia|exact Hrest|].
      split; [|auto]. cbn [str_ok]. rewrite Hc, H, andb_true_r. cbn [andb].
      apply negb_true_iff. destruct (is_high_surrogate c); [|reflexivity].
      cbn [andb] in *. destruct (universal_newlines rest) as [|c2 tl]; [reflexivity|].
      destruct (is_low_surrogate c2) eqn:Hlow; [|reflexivity].
      specialize (Hhead eq_refl). destruct rest as [|c1 rest1]; [contradiction|].
      congruence.
Qed.

(** The credentials read from a file of proper text are proper strings. *)
Lemma tokens_str_ok (content : pystr) :
  str_ok content = true ->
  Forall (fun token => str_ok token = true)
         (map strip (filter (fun l => negb (is_blank l)) (file_lines content))).
Proof.
  intros Hok. apply Forall_forall. intros token Hin.
  apply in_map_iff in Hin. destruct Hin as (l & <- & Hl).
  apply filter_In in Hl. destruct Hl as [Hl _].
  destruct (universal_newlines_ok _ content (Nat.le_refl _) Hok) as [Hun _].
  destruct (split_lines_factor _ [] l Hl) as (a & b & Hab). cbn [app] in Hab.
  rewrite Hab in Hun. apply str_ok_factor in Hun.
  destruct (strip_factor l) as (p & q & Hpq). rewrite Hpq in Hun.
  apply (str_ok_factor p _ q), Hun.
Qed.

Section StableResults.

Variable P : Platform.
Variable World : Type.
Variable requests_get : request -> World -> res response * World.

(** Every answer of the network is proper text and stable JSON. *)
Hypothesis network_stable :
  forall req w, stable_outcome (fst (requests_get req w)) = true.

Lemma handler_status_ok (e : exn) :
  str_ok (exn_str e) = true ->
  str_ok ((if is_RequestException e then str "Connection Error: " else str "Error: ")
          ++ exn_str e) = true.
Proof.
  intros He. apply str_ok_ascii_app; [|exact He].
  destruct (is_RequestException e); reflexivity.
Qed.

(** The record of a proper credential is stable. *)
Lemma verify_token_stable (token : pystr) (s : State World) (r : pydict)
      (s' : State World) :
  verify_token P World requests_get token s = (Ok r, s') ->
  str_ok token = true -> json_stable (PDict r) = true.
Proof.
  intros Hrun Htoken.
  pose proof (network_stable (request_for (self s) token) (world s)) as Hnet.
  destruct (requests_get (request_for (self s) token) (world s)) as [[resp|e] w] eqn:Hreq;
    cbn [fst stable_outcome] in Hnet.
  - destruct (Z.eq_dec (status_code resp) 200) as [H200|H200].
    + destruct (json resp) as [v|e] eqn:Hj.
      * assert (Hv : (exists d, v = PDict d) \/ (forall d, v <> PDict d))
          by (destruct v; try (right; discriminate); left; eauto).
        destruct Hv as [[d ->]|Hv].
        -- destruct (verify_token_200_object P World requests_get token s resp w d Hreq H200 Hj)
             as (c & Hc & Hr).
           rewrite Hr in Hrun. injection Hrun as <- _.
           destruct (get_creation_date_ascii P (dict_get d (str "id") PNone))
             as (c' & Hc' & Hascii).
           rewrite Hc in Hc'. injection Hc' as <-.
           apply valid_record_stable; assumption.
        -- rewrite (verify_token_200_not_object P World requests_get token s resp w v
                      Hreq H200 Hj Hv) in Hrun.
           injection Hrun as <- _. apply invalid_record_stable; [exact Htoken|].
           apply str_ok_ascii.
           change (is_ascii (str "Error: '" ++ type_name v
                             ++ str "' object has no attribute 'get'") = true).
           rewrite !is_ascii_app, type_name_ascii. reflexivity.
      * rewrite (verify_token_200_json_raises P World requests_get token s resp w e
                   Hreq H200 Hj) in Hrun.
        injection Hrun as <- _. apply invalid_record_stable; [exact Htoken|].
        apply handler_status_ok, Hnet.
    + destruct (Z.eq_dec (status_code resp) 401) as [H401|H401].
      * rewrite (verify_token_401 P World requests_get token s resp w Hreq H401) in Hrun.
        injection Hrun as <- _. apply invalid_record_stable; [exact Htoken|reflexivity].
      * rewrite (verify_token_other_status P World requests_get token s resp w
                   Hreq H200 H401) in Hrun.
        injection Hrun as <- _. apply invalid_record_stable; [exact Htoken|].
        apply str_ok_ascii.
        change (is_ascii (str "Error - HTTP " ++ str_of_int (status_code resp)) = true).
        rewrite is_ascii_app, str_of_int_ascii. reflexivity.
  - rewrite (verify_token_request_raises P World requests_get token s e w Hreq) in Hrun.
    injection Hrun as <- _. apply invalid_record_stable; [exact Htoken|].
    apply handler_status_ok, Hnet.
Qed.

(** The records a batch collects from a file of proper text are stable. *)
Lemma verify_from_file_stable (file_path content : pystr) (s : State World) :
  results (self s) = [] ->
  fs_read (files s) file_path = Ok content ->
  str_ok content = true ->
  exists rs s',
    verify_from_file P World requests_get file_path s = (Ok rs, s') /\
    results (self s') = rs /\
    files s' = files s /\
    json_stable (PList (map PDict rs)) = true.
Proof.
  intros Hnil Hread Hok.
  destruct (verify_from_file_appends P World requests_get
              (fun token r => str_ok token = true -> json_stable (PDict r) = true)
              file_path content s verify_token_stable Hread)
    as (new & s' & Hrun & Hres & Hall & Hfs).
  rewrite Hnil in Hrun, Hres. cbn [app] in Hrun, Hres.
  exists new, s'. repeat split; try assumption.
  pose proof (tokens_str_ok content Hok) as Htok. revert Htok Hall.
  generalize (map strip (filter (fun l => negb (is_blank l)) (file_lines content))).
  clear. intros tokens Htok Hall.
  induction Hall as [|t r tokens new Hr Hall IH]; [reflexivity|].
  inversion Htok as [|? ? Ht Htok']; subst.
  cbn [json_stable map forallb] in *. rewrite (Hr Ht), (IH Htok'). reflexivity.
Qed.

(** The run of [main] on a file of proper text: the batch, then the
    report.  Reading [results.json] back gives the list the batch
    returned. *)
Lemma batch_report_reads_back (file_path content output_file : pystr) (s : State World) :
  results (self s) = [] ->
  fs_read (files s) file_path = Ok content ->
  str_ok content = true ->
  fs_write_error (files s) output_file = None ->
  exists rs s1 s2 text,
    verify_from_file P World requests_get file_path s = (Ok rs, s1) /\
    save_results_json P World output_file s1 = (Ok tt, s2) /\
    fs_read (files s2) output_file = Ok text /\
    json_loads P text = Ok (PList (map PDict rs)).
Proof.
  intros Hnil Hread Hok Hwrite.
  destruct (verify_from_file_stable file_path content s Hnil Hread Hok)
    as (rs & s1 & Hrun & Hres & Hfs & Hstable).
  rewrite <- Hfs in Hwrite. rewrite <- Hres in Hstable.
  destruct (save_results_json_reads_back P World output_file s1 Hwrite Hstable)
    as (s2 & text & Hsave & Hfile & Hload).
  rewrite Hres in Hload. exists rs, s1, s2, text. auto.
Qed.

End StableResults.

(** ** The theorems at work on concrete worlds *)

(** The scenario of the specification: the file holds "deadbeef" and an
    empty line, and the connection fails. *)
Example deadbeef_connection_error :
  fst (verify_from_file linux_utc _ scripted tokens_txt
         (start [Raise connection_refused]
                (one_file tokens_txt (str "deadbeef" ++ [10; 10]%N))))
  = Ok [ invalid_record (str "deadbeef") (str "Connection Error: Connection refused") ].
Proof. vm_compute. reflexivity. Qed.



Example three_tokens_lines :
  map strip (filter (fun l => negb (is_blank l)) (file_lines three_tokens))
  = [str "deadbeef"; str "abc"; str "xyz"].
Proof. vm_compute. reflexivity. Qed.

Lemma verify_token_classifies_witness :
  exists c,
    get_creation_date linux_utc (PStr (str "175928847299117063")) = Ok (PStr c) /\
    verify_token linux_utc _ scripted (str "deadbeef") (start [Ok ok_user] no_files)
    = (Ok [ (str "token", PStr (str "deadbeef"));
            (str "valid", PBool true);
            (str "username", PStr (str "alice"));
            (str "user_id", PStr (str "175928847299117063"));
            (str "email", PStr (str "alice@example.org"));
            (str "avatar", PNone);
            (str "created_at", PStr c);
            (str "verified", PBool true);
            (str "mfa_enabled", PBool false);
            (str "status", PStr (str "Valid Token")) ],
       start [] no_files).
Proof.
  exact (proj1 (proj1 (verify_token_classifies linux_utc _ scripted (str "deadbeef")
                         (start [Ok ok_user] no_files) ok_user [] eq_refl) eq_refl)
               _ eq_refl).
Defined.

(** C2 as stated fails: a response with status 200 whose body is the JSON
    array [[]] gives a record with valid=false. *)
Lemma verify_token_classifies_counterexample :
  scripted (request_for init (str "deadbeef")) [Ok ok_empty_array] = (Ok ok_empty_array, []) /\
  status_code ok_empty_array = 200 /\
  verify_token linux_utc _ scripted (str "deadbeef") (start [Ok ok_empty_array] no_files)
  = (Ok [ (str "token", PStr (str "deadbeef"));
          (str "valid", PBool false);
          (str "username", PStr (str "N/A"));
          (str "user_id", PStr (str "N/A"));
          (str "email", PStr (str "N/A"));
          (str "avatar", PStr (str "N/A"));
          (str "created_at", PStr (str "N/A"));
          (str "verified", PBool false);
          (str "mfa_enabled", PBool false);
          (str "status", PStr (str "Error: 'list' object has no attribute 'get'")) ],
     start [] no_files).
Proof. repeat split. Qed.

Lemma verify_token_identity_fields_witness :
  dict_lookup (str "username") (invalid_record (str "deadbeef") (str "Invalid Token - Unauthorized"))
    = Some (PStr NA) /\
  dict_lookup (str "user_id") (invalid_record (str "deadbeef") (str "Invalid Token - Unauthorized"))
    = Some (PStr NA) /\
  dict_lookup (str "email") (invalid_record (str "deadbeef") (str "Invalid Token - Unauthorized"))
    = Some (PStr NA) /\
  dict_lookup (str "avatar") (invalid_record (str "deadbeef") (str "Invalid Token - Unauthorized"))
    = Some (PStr NA).
Proof.
  exact (proj2 (verify_token_identity_fields linux_utc _ scripted (str "deadbeef")
                  (start [Ok unauthorized] no_files) (start [] no_files)
                  (invalid_record (str "deadbeef") (str "Invalid Token - Unauthorized"))
                  eq_refl)
               eq_refl).
Defined.

(** C3 as stated fails: a 200 response whose body is the empty JSON object
    gives valid=true with every identity field the sentinel. *)
Lemma verify_token_identity_fields_counterexample :
  exists r,
    fst (verify_token linux_utc _ scripted (str "deadbeef") (start [Ok ok_empty_object] no_files))
      = Ok r /\
    dict_lookup (str "valid") r = Some (PBool true) /\
    dict_lookup (str "username") r = Some (PStr (str "N/A")) /\
    dict_lookup (str "user_id") r = Some (PStr (str "N/A")) /\
    dict_lookup (str "email") r = Some (PStr (str "N/A")) /\
    dict_lookup (str "avatar") r = Some (PStr (str "N/A")).
Proof. eexists. repeat split. Qed.

Lemma verify_token_network_failure_witness :
  verify_token linux_utc _ scripted (str "deadbeef") (start [Raise connection_refused] no_files)
  = (Ok [ (str "token", PStr (str "deadbeef"));
          (str "valid", PBool false);
          (str "username", PStr (str "N/A"));
          (str "user_id", PStr (str "N/A"));
          (str "email", PStr (str "N/A"));
          (str "avatar", PStr (str "N/A"));
          (str "created_at", PStr (str "N/A"));
          (str "verified", PBool false);
          (str "mfa_enabled", PBool false);
          (str "status", PStr (str "Connection Error: Connection refused")) ],
     start [] no_files).
Proof.
  exact (verify_token_network_failure linux_utc _ scripted (str "deadbeef")
           (start [Raise connection_refused] no_files) connection_refused [] eq_refl).
Defined.


(** C9 as stated fails: a response with status 200 whose body is not JSON
    gives a record with valid=false. *)
Lemma verify_token_record_shape_counterexample :
  scripted (request_for init (str "deadbeef")) [Ok ok_not_json] = (Ok ok_not_json, []) /\
  status_code ok_not_json = 200 /\
  exists r,
    fst (verify_token linux_utc _ scripted (str "deadbeef") (start [Ok ok_not_json] no_files))
      = Ok r /\
    dict_lookup (str "valid") r = Some (PBool false).
Proof. repeat split. eexists. split; reflexivity. Qed.



(** * Further properties *)

(** ** The Verifier: one request, nothing else *)

Section VerifierFrame.

Variable P : Platform.
Variable World : Type.
Variable requests_get : request -> World -> res response * World.

(** A run of [verify_token] returns a record of one of the two shapes and
    leaves the state as the one request left the network. *)
Lemma verify_token_run (token : pystr) (s : State World) :
  exists r,
    verify_token P World requests_get token s
    = (Ok r, with_world s (snd (requests_get (request_for (self s) token) (world s)))) /\
    is_record token r.
Proof.
  destruct (requests_get (request_for (self s) token) (world s)) as [[resp|e] w] eqn:Hreq;
    cbn [snd].
  - destruct (Z.eq_dec (status_code resp) 200) as [H200|H200].
    + destruct (json resp) as [v|e] eqn:Hj.
      * assert (Hv : (exists d, v = PDict d) \/ (forall d, v <> PDict d))
          by (destruct v; try (right; discriminate); left; eauto).
        destruct Hv as [[d ->]|Hv].
        -- destruct (verify_token_200_object P World requests_get token s resp w d
                       Hreq H200 Hj) as (c & _ & Hrun).
           eexists. split; [exact Hrun|]. right. eauto.
        -- eexists. split;
             [apply (verify_token_200_not_object P World requests_get token s resp w v
                       Hreq H200 Hj Hv)|].
           left. eauto.
      * eexists. split;
          [apply (verify_token_200_json_raises P World requests_get token s resp w e
                    Hreq H200 Hj)|].
        left. eauto.
    + destruct (Z.eq_dec (status_code resp) 401) as [H401|H401].
      * eexists. split;
          [apply (verify_token_401 P World requests_get token s resp w Hreq H401)|].
        left. eauto.
      * eexists. split;
          [apply (verify_token_other_status P World requests_get token s resp w
                    Hreq H200 H401)|].
        left. eauto.
  - eexists. split;
      [apply (verify_token_request_raises P World requests_get token s e w Hreq)|].
    left. eauto.
Qed.

(** [verify_token] never raises.  It sends one request, to the address of
    the verifier followed by "/users/@me", with the credential as it is in
    the Authorization header, the User-Agent "Mozilla/5.0" and a timeout of
    5 seconds, and changes nothing but the network: [self.results], the
    files and the console are as before. *)
Theorem verify_token_one_request (token : pystr) (s : State World) :
  let sent :=
    {| req_url := discord_api_url (self s) ++ str "/users/@me";
       req_headers := [ (str "Authorization", token);
                        (str "User-Agent", str "Mozilla/5.0") ];
       req_timeout := 5 |} in
  exists r,
    verify_token P World requests_get token s
    = (Ok r,
       {| self := self s; world := snd (requests_get sent (world s));
          files := files s; console := console s |}).
Proof.
  cbv zeta. destruct (verify_token_run token s) as (r & Hrun & _).
  exists r. exact Hrun.
Qed.

End VerifierFrame.

(** ** The Batch Runner: what a run does to the network and the console *)

Lemma strip_ends (l : pystr) (c : N) (t : pystr) :
  strip l = c :: t ->
  py_isspace c = false /\ py_isspace (last (c :: t) c) = false.
Proof.
  unfold strip. intros H.
  destruct (lstrip_suffix (rev (lstrip l))) as [p Hp].
  destruct (lstrip (rev (lstrip l))) as [|b bs] eqn:Hb; [discriminate|].
  pose proof (lstrip_head _ _ _ Hb) as Hlast.
  rewrite <- H. split.
  - (* the first character is the first of [lstrip l] *)
    apply (f_equal (@rev N)) in Hp. rewrite rev_involutive, rev_app_distr in Hp.
    rewrite H in Hp. cbn [app] in Hp. apply (lstrip_head l c (t ++ rev p)).
    exact Hp.
  - cbn [rev]. rewrite last_last. exact Hlast.
Qed.

Section BatchTrace.

Variable P : Platform.
Variable World : Type.
Variable requests_get : request -> World -> res response * World.

Local Abbreviation run_token := (verify_token P World requests_get).
Local Abbreviation run_file := (verify_from_file P World requests_get).

(** The network after the requests for [tokens], sent in order by the
    verifier [this]. *)
Local Abbreviation after_requests this tokens start :=
  (fold_left (fun w token => snd (requests_get (request_for this token) w)) tokens start).

(** One turn of the loop: one request, one record appended, its lines
    printed. *)
Lemma loop_turn (body : pystr -> M World unit) :
  (forall token s,
     body token s =
       (result <- run_token token ;;
        append_result result ;;
        valid <- lift (py_getitem result (str "valid")) ;;
        let status_icon := if truthy valid then [10003%N] else [10007%N] in
        status <- lift (py_getitem result (str "status")) ;;
        print [Fmt (PStr status_icon); Lit (str " Token: ");
               Fmt (PStr (firstn 20 token)); Lit (str "... | Status: ");
               Fmt status] ;;
        valid <- lift (py_getitem result (str "valid")) ;;
        (if truthy valid then
           username <- lift (py_getitem result (str "username")) ;;
           print [Lit (str "   Username: "); Fmt username] ;;
           user_id <- lift (py_getitem result (str "user_id")) ;;
           print [Lit (str "   User ID: "); Fmt user_id] ;;
           email <- lift (py_getitem result (str "email")) ;;
           print [Lit (str "   Email: "); Fmt email] ;;
           created_at <- lift (py_getitem result (str "created_at")) ;;
           print [Lit (str "   Account Created: "); Fmt created_at] ;;
           mfa_enabled <- lift (py_getitem result (str "mfa_enabled")) ;;
           print [Lit (str "   MFA Enabled: "); Fmt mfa_enabled]
         else ret tt) ;;
        print [])%M s) ->
  forall token s,
    exists r s',
      body token s = (Ok tt, s') /\
      is_record token r /\
      self s' = {| discord_api_url := discord_api_url (self s);
                   results := results (self s) ++ [r] |} /\
      world s' = snd (requests_get (request_for (self s) token) (world s)) /\
      files s' = files s /\
      console s' = console s ++ echo token r.
Proof.
  intros Hbody token s. rewrite Hbody. unfold bind at 1.
  destruct (verify_token_run P World requests_get token s) as (r & Hrun & Hr).
  rewrite Hrun. exists r.
  destruct Hr as [(status & ->)|(d & c & ->)].
  - eexists. split; [reflexivity|]. split; [left; eauto|].
    split; [reflexivity|]. split; [reflexivity|]. split; [reflexivity|].
    cbn [console]. rewrite <- !app_assoc. reflexivity.
  - eexists. split; [reflexivity|]. split; [right; eauto|].
    split; [reflexivity|]. split; [reflexivity|]. split; [reflexivity|].
    cbn [console]. rewrite <- !app_assoc. reflexivity.
Qed.

Lemma loop_trace (body : pystr -> M World unit) :
  (forall token s,
     exists r s',
       body token s = (Ok tt, s') /\
       is_record token r /\
       self s' = {| discord_api_url := discord_api_url (self s);
                    results := results (self s) ++ [r] |} /\
       world s' = snd (requests_get (request_for (self s) token) (world s)) /\
       files s' = files s /\
       console s' = console s ++ echo token r) ->
  forall tokens s,
    exists rs s',
      for_each tokens body s = (Ok tt, s') /\
      Forall2 is_record tokens rs /\
      self s' = {| discord_api_url := discord_api_url (self s);
                   results := results (self s) ++ rs |} /\
      world s' = after_requests (self s) tokens (world s) /\
      files s' = files s /\
      console s' = console s
                   ++ flat_map (fun tr => echo (fst tr) (snd tr)) (combine tokens rs).
Proof.
  intros Hbody tokens. induction tokens as [|t tokens IH]; intros s.
  - exists [], s. cbn [for_each fold_left combine flat_map]. rewrite !app_nil_r.
    split; [reflexivity|]. split; [constructor|]. destruct s as [[url rs] w fs c].
    repeat split.
  - destruct (Hbody t s) as (r & s1 & Hrun & Hr & Hself & Hw & Hfs & Hc).
    destruct (IH s1) as (rs & s2 & Hrun2 & Hall & Hself2 & Hw2 & Hfs2 & Hc2).
    exists (r :: rs), s2. cbn [for_each]. unfold bind. rewrite Hrun, Hrun2.
    split; [reflexivity|]. split; [constructor; assumption|].
    rewrite Hself in Hself2, Hw2. cbn [discord_api_url results] in Hself2.
    split; [rewrite Hself2, <- app_assoc; reflexivity|].
    split; [rewrite Hw2, Hw; reflexivity|].
    split; [congruence|].
    rewrite Hc2, Hc, <- app_assoc. reflexivity.
Qed.

(** The whole of a run on a readable file. *)
Lemma verify_from_file_trace (file_path content : pystr) (s : State World) :
  fs_read (files s) file_path = Ok content ->
  let tokens := read_tokens (file_lines content) in
  exists new s',
    run_file file_path s = (Ok (results (self s) ++ new), s') /\
    Forall2 is_record tokens new /\
    self s' = {| discord_api_url := discord_api_url (self s);
                 results := results (self s) ++ new |} /\
    world s' = after_requests (self s) tokens (world s) /\
    files s' = files s /\
    console s' =
      console s
      ++ [ [Lit (10%N :: str "[*] Found "); Fmt (PInt (Z.of_nat (List.length tokens)));
            Lit (str " token(s) to verify")];
           [Lit (str "[*] Starting verification..." ++ [10%N])] ]
      ++ flat_map (fun tr => echo (fst tr) (snd tr)) (combine tokens new).
Proof.
  intros Hread tokens.
  unfold verify_from_file, try_except.
  unfold bind at 1. unfold open_read. rewrite Hread.
  unfold bind at 1. unfold print at 1. unfold bind at 1. unfold print at 1.
  unfold bind at 1.
  match goal with
  | |- context [for_each ?l ?b ?st] =>
      destruct (loop_trace b (loop_turn b (fun _ _ => eq_refl)) l st)
        as (new & s1 & Hrun & Hall & Hself & Hw & Hfs & Hc)
  end.
  rewrite Hrun. cbn [self world files console] in Hself, Hw, Hfs, Hc.
  exists new, s1. unfold bind, get_self, ret. rewrite Hself. cbn [results].
  split; [reflexivity|]. split; [exact Hall|]. split; [reflexivity|].
  split; [exact Hw|]. split; [exact Hfs|].
  rewrite Hc, <- !app_assoc. reflexivity.
Qed.

Lemma token_of_record (token : pystr) (r : pydict) :
  is_record token r -> dict_lookup (str "token") r = Some (PStr token).
Proof. intros [(status & ->)|(d & c & ->)]; reflexivity. Qed.

Lemma Forall2_Forall_r {A B} (R : A -> B -> Prop) (Q : B -> Prop) (l : list A) (l' : list B) :
  Forall2 R l l' ->
  (forall x y, In x l -> R x y -> Q y) ->
  Forall Q l'.
Proof.
  intros H. induction H as [|x y l l' Hxy H IH]; intros HQ; constructor.
  - apply (HQ x y); [left; reflexivity|exact Hxy].
  - apply IH. intros x' y' Hin. apply HQ. right. exact Hin.
Qed.

(** On a readable file, [verify_from_file] sends one request per
    credential of the file, in the order of the lines, each as
    [verify_token] sends it, and no other: the network ends where these
    requests, one after the other, leave it. *)
Theorem verify_from_file_requests_in_order
        (file_path content : pystr) (s : State World) :
  fs_read (files s) file_path = Ok content ->
  exists rs s',
    run_file file_path s = (Ok rs, s') /\
    world s' =
      fold_left
        (fun w token =>
           snd (requests_get
                  {| req_url := discord_api_url (self s) ++ str "/users/@me";
                     req_headers := [ (str "Authorization", token);
                                      (str "User-Agent", str "Mozilla/5.0") ];
                     req_timeout := 5 |} w))
        (read_tokens (file_lines content)) (world s).
Proof.
  intros Hread.
  destruct (verify_from_file_trace file_path content s Hread)
    as (new & s' & Hrun & _ & _ & Hw & _).
  exists (results (self s) ++ new), s'. split; [exact Hrun|exact Hw].
Qed.

(** Every credential [verify_from_file] records is a non-empty string
    that neither starts nor ends with white space: the lines are stripped
    and the blank ones dropped before anything is sent. *)
Theorem verify_from_file_tokens_stripped
        (file_path content : pystr) (s : State World) :
  fs_read (files s) file_path = Ok content ->
  exists new s',
    run_file file_path s = (Ok (results (self s) ++ new), s') /\
    Forall (fun r =>
              exists c t,
                dict_lookup (str "token") r = Some (PStr (c :: t)) /\
                py_isspace c = false /\
                py_isspace (last (c :: t) c) = false) new.
Proof.
  intros Hread.
  destruct (verify_from_file_trace file_path content s Hread)
    as (new & s' & Hrun & Hall & _).
  exists new, s'. split; [exact Hrun|].
  apply (Forall2_Forall_r _ _ _ _ Hall). intros token r Hin Hr.
  rewrite read_tokens_filter in Hin. apply in_map_iff in Hin.
  destruct Hin as (l & <- & Hl). apply filter_In in Hl. destruct Hl as [_ Hblank].
  destruct (strip l) as [|c t] eqn:Hs.
  - apply strip_nil_iff in Hs. unfold is_blank in Hblank. rewrite Hs in Hblank.
    discriminate.
  - exists c, t. split; [apply token_of_record, Hr|]. apply (strip_ends l), Hs.
Qed.

(** What a run on a readable file prints: the number of credentials
    found, the start line, and for each credential, in order, its status
    line with no more than the first 20 characters of the credential,
    five lines of details exactly when its record is valid, and an empty
    line. *)
Theorem verify_from_file_console
        (file_path content : pystr) (s : State World) :
  fs_read (files s) file_path = Ok content ->
  let tokens := read_tokens (file_lines content) in
  exists new s',
    run_file file_path s = (Ok (results (self s) ++ new), s') /\
    List.length new = List.length tokens /\
    console s' =
      console s
      ++ [ [Lit (10%N :: str "[*] Found "); Fmt (PInt (Z.of_nat (List.length tokens)));
            Lit (str " token(s) to verify")];
           [Lit (str "[*] Starting verification..." ++ [10%N])] ]
      ++ flat_map (fun tr => echo (fst tr) (snd tr)) (combine tokens new).
Proof.
  intros Hread tokens.
  destruct (verify_from_file_trace file_path content s Hread)
    as (new & s' & Hrun & Hall & _ & _ & _ & Hc).
  exists new, s'. split; [exact Hrun|]. split; [|exact Hc].
  symmetry. apply (Forall2_length Hall).
Qed.

End BatchTrace.
